(** * Advanced expense tracker: a shallow embedding of [expense_tracker.py]

    The development follows the classes of the source file:
    [ExpenseAnalyzer] (category and monthly summaries, rolling trend,
    z-score anomaly detection), [BudgetManager] (monthly budget check) and
    [ExpenseTracker] with the [main] menu loop.

    Numbers.  The source computes with binary64 floats through pandas.
    Amounts, limits and thresholds are modelled here as exact rationals
    ([Q]); results are compared with [==] ([Qeq]).  The two IEEE special
    values the source can produce, the undefined standard deviation of a
    one-record group and the quotient by a zero standard deviation, are
    modelled explicitly ([SdNaN], [ZNaN], [ZInf]).  Rounding error of
    binary64 arithmetic is outside the model.

    Data frames.  A frame of expense records is a list of rows in index
    order; [groupby] yields one row per distinct key, in ascending key
    order, as pandas does with its default [sort=True]. *)

From Stdlib Require Import ZArith QArith Qround Qabs Lqa Lia List String Ascii Bool.
From Stdlib Require Import DecimalString Sorting.Sorted.
From Stdlib Require Reals Qreals Lra.
From stdpp Require Import gmap strings.
Import ListNotations.

Local Open Scope Z_scope.

(** ** Numbers and their rendering *)

Module Num.

(** [x > y] on floats, as the source writes it. *)
Definition gt (x y : Q) : bool := negb (Qle_bool x y).

(** Round half to even, the rule of [round] and of fixed-point
    formatting. *)
Definition round_half_even (x : Q) : Z :=
  let n := Qnum x in
  let d := Z.pos (Qden x) in
  let fl := n / d in
  let r2 := 2 * (n mod d) in
  match r2 ?= d with
  | Lt => fl
  | Gt => fl + 1
  | Eq => if Z.even fl then fl else fl + 1
  end.

(** [DataFrame.round(decimals)] on one cell. *)
Definition round (decimals : nat) (x : Q) : Q :=
  let scale := 10 ^ Z.of_nat decimals in
  Qred (inject_Z (round_half_even (x * inject_Z scale)%Q) / inject_Z scale)%Q.

Definition digits (n : Z) : string :=
  NilZero.string_of_uint (N.to_uint (Z.to_N n)).

(** Decimal digits of [n], padded with zeros on the left to [width]. *)
Definition zero_pad (width : nat) (n : Z) : string :=
  let s := digits n in
  String.append
    (string_of_list_ascii (repeat "0"%char (width - String.length s))) s.

(** The format specification [:.{decimals}f]. *)
Definition format_f (decimals : nat) (x : Q) : string :=
  let scale := 10 ^ Z.of_nat decimals in
  let r := round_half_even (Qabs x * inject_Z scale)%Q in
  let sign := if Qle_bool 0 x then ""%string else "-"%string in
  let int_part := digits (r / scale) in
  match decimals with
  | O => String.append sign int_part
  | _ => String.append sign
           (String.append int_part
              (String.append "." (zero_pad decimals (r mod scale))))
  end.

Definition sum (xs : list Q) : Q := fold_left Qplus xs 0%Q.

End Num.

(** ** Timestamps *)

Record Timestamp := mkTimestamp {
  ts_year : Z;
  ts_month : Z;
  ts_day : Z;
  ts_micros : Z      (* time of day, microseconds since midnight *)
}.

Module Calendar.

Definition is_leap (y : Z) : bool :=
  (y mod 4 =? 0) && (negb (y mod 100 =? 0) || (y mod 400 =? 0)).

Definition days_before_year (y : Z) : Z :=
  let p := y - 1 in p * 365 + p / 4 - p / 100 + p / 400.

Definition days_in_month (y m : Z) : Z :=
  if m =? 2 then (if is_leap y then 29 else 28)
  else if (m =? 4) || (m =? 6) || (m =? 9) || (m =? 11) then 30
  else 31.

Definition days_before_month (y m : Z) : Z :=
  fold_left Z.add
    (map (fun k => days_in_month y (Z.of_nat k)) (seq 1 (Z.to_nat (m - 1)))) 0.

(** Proleptic Gregorian ordinal of the calendar day, 0001-01-01 is 1. *)
Definition toordinal (t : Timestamp) : Z :=
  days_before_year (ts_year t) + days_before_month (ts_year t) (ts_month t)
  + ts_day t.

(** [strftime('%Y-%m')]. *)
Definition strftime_Ym (t : Timestamp) : string :=
  String.append (Num.zero_pad 4 (ts_year t))
    (String.append "-" (Num.zero_pad 2 (ts_month t))).

(** [dt.to_period('M')]: the calendar month as (year, month). *)
Definition to_period_M (t : Timestamp) : Z * Z := (ts_year t, ts_month t).

End Calendar.

(** ** The ledger *)

Record Expense := mkExpense {
  date : Timestamp;
  category : string;
  amount : Q;
  description : string
}.

(** The data frame held by the tracker: rows in index order. *)
Definition Ledger : Type := list Expense.

Definition amounts (rows : Ledger) : list Q := map amount rows.

(** The column [month = date.dt.to_period('M')]. *)
Definition month_of (e : Expense) : Z * Z := Calendar.to_period_M (date e).

(** ** BudgetManager *)

Inductive BudgetAlert :=
| Overspend (limit spent overspend : Q)
| Warning (limit spent : Q) (warning : string).

Module BudgetManager.

(** [self.budgets[category] = monthly_limit] *)
Definition set_budget (budgets : gmap string Q) (category : string)
    (monthly_limit : Q) : gmap string Q :=
  <[category := monthly_limit]> budgets.

(** Rows of the current month: [expenses[expenses['date'].dt.strftime('%Y-%m') == current_month]]. *)
Definition monthly_expenses (now : Timestamp) (expenses : Ledger) : Ledger :=
  let current_month := Calendar.strftime_Ym now in
  List.filter
    (fun e => String.eqb (Calendar.strftime_Ym (date e)) current_month)
    expenses.

(** [monthly_expenses[monthly_expenses['category'] == category]['amount'].sum()] *)
Definition total_spent (now : Timestamp) (expenses : Ledger)
    (cat : string) : Q :=
  Num.sum
    (amounts
       (List.filter (fun e => String.eqb (category e) cat)
          (monthly_expenses now expenses))).

Definition warning_message (spent limit : Q) : string :=
  String.append "Approaching budget limit ("
    (String.append (Num.format_f 1 ((spent / limit) * 100)%Q) "%)").

(** The body of the loop over [self.budgets.items()] for one item. *)
Definition evaluate (spent limit : Q) : option BudgetAlert :=
  if Num.gt spent limit then
    Some (Overspend limit spent (spent - limit)%Q)
  else if Num.gt spent (limit * 0.8)%Q then
    Some (Warning limit spent (warning_message spent limit))
  else None.

Definition check_budget_violations (now : Timestamp)
    (budgets : gmap string Q) (expenses : Ledger) : gmap string BudgetAlert :=
  map_imap (fun cat limit => evaluate (total_spent now expenses cat) limit)
    budgets.

End BudgetManager.

(** ** Grouping

    [frame.groupby(key)]: the distinct keys in ascending order, each with
    the rows that carry it, in frame order. *)

Section GroupBy.

Context {K : Type}.
Variable cmp : K -> K -> comparison.
Variable key : Expense -> K.

Fixpoint insert_key (k : K) (ks : list K) : list K :=
  match ks with
  | [] => [k]
  | h :: t =>
      match cmp k h with
      | Lt => k :: h :: t
      | Eq => h :: t
      | Gt => h :: insert_key k t
      end
  end.

Definition group_keys (rows : Ledger) : list K :=
  fold_right insert_key [] (map key rows).

Definition has_key (k : K) (e : Expense) : bool :=
  match cmp (key e) k with Eq => true | _ => false end.

Definition group (rows : Ledger) (k : K) : Ledger :=
  List.filter (has_key k) rows.

Definition groupby (rows : Ledger) : list (K * Ledger) :=
  map (fun k => (k, group rows k)) (group_keys rows).

(** Strictly ascending keys. *)
Definition key_lt (x y : K) : Prop := cmp x y = Lt.

End GroupBy.

Definition period_compare (p q : Z * Z) : comparison :=
  match fst p ?= fst q with
  | Eq => snd p ?= snd q
  | c => c
  end.

Inductive exn := ValueError | EOFError.

(** A float that may be missing ([NaN] in a pandas column). *)
Definition cell : Type := option Q.

(** Standard deviation of a group: undefined, or the square root of a
    variance. *)
Inductive StdDev :=
| SdNaN
| SdSqrt (variance : Q).

(** A z-score: [NaN], an infinity, or the quotient [num / sqrt variance]
    by a positive standard deviation. *)
Inductive ZScore :=
| ZNaN
| ZInf (negative : bool)
| ZRatio (num variance : Q).

(** ** ExpenseAnalyzer *)

Module ExpenseAnalyzer.

Record CategoryRow := mkCategoryRow {
  cat_sum : Q;
  cat_count : Z;
  cat_mean : Q
}.

Record MonthRow := mkMonthRow {
  month_sum : Q;
  month_count : Z
}.

Definition count (rows : Ledger) : Z := Z.of_nat (List.length rows).

Definition mean (rows : Ledger) : Q :=
  (Num.sum (amounts rows) / inject_Z (count rows))%Q.

(** [groupby('category')['amount'].agg(['sum','count','mean']).round(2)] *)
Definition get_category_summary (data : Ledger) : list (string * CategoryRow) :=
  map (fun kg =>
         (fst kg,
          mkCategoryRow (Num.round 2 (Num.sum (amounts (snd kg))))
            (count (snd kg))
            (Num.round 2 (mean (snd kg)))))
    (groupby String.compare category data).

(** [groupby('month')['amount'].agg(['sum','count']).round(2)] with
    [month = date.dt.to_period('M')]. *)
Definition get_monthly_summary (data : Ledger) : list (Z * Z * MonthRow) :=
  map (fun kg =>
         (fst kg,
          mkMonthRow (Num.round 2 (Num.sum (amounts (snd kg))))
            (count (snd kg))))
    (groupby period_compare month_of data).

Definition day_of (e : Expense) : Z := Calendar.toordinal (date e).

Definition min_day (data : Ledger) (d0 : Z) : Z :=
  fold_left Z.min (map day_of data) d0.
Definition max_day (data : Ledger) (d0 : Z) : Z :=
  fold_left Z.max (map day_of data) d0.

(** [set_index('date').resample('D')['amount'].sum().fillna(0)]: one
    bin per calendar day from the first to the last day of the ledger;
    a day without rows sums to 0. *)
Definition daily_data (data : Ledger) : list (Z * Q) :=
  match data with
  | [] => []
  | e :: _ =>
      let lo := min_day data (day_of e) in
      let hi := max_day data (day_of e) in
      map (fun i =>
             let d := lo + Z.of_nat i in
             (d, Num.sum (amounts (List.filter (fun x => day_of x =? d) data))))
        (seq 0 (Z.to_nat (hi - lo + 1)))
  end.

(** Mean of the window that ends at position [i]: the last [window]
    observations, fewer at the start of the series.  With the default
    [min_periods = window] the mean is missing unless the window is
    full; an empty window has no mean. *)
Definition window_mean (window : nat) (xs : list Q) (i : nat) : cell :=
  let start := (i + 1 - window)%nat in
  let obs := firstn (i + 1 - start) (skipn start xs) in
  let nobs := List.length obs in
  if (window <=? nobs)%nat && (0 <? nobs)%nat
  then Some (Num.sum obs / inject_Z (Z.of_nat nobs))%Q
  else None.

(** [series.rolling(window=window).mean()] *)
Definition rolling_mean (window : Z) (series : list (Z * Q))
    : exn + list (Z * cell) :=
  if window <? 0 then inl ValueError
  else
    let xs := map snd series in
    inr (map (fun i => (fst (nth i series (0, 0%Q)),
                        window_mean (Z.to_nat window) xs i))
           (seq 0 (List.length series))).

Definition get_spending_trend (data : Ledger) (window : Z)
    : exn + list (Z * cell) :=
  rolling_mean window (daily_data data).

Definition sq (x : Q) : Q := (x * x)%Q.

(** [groupby('category')['amount'].mean()] *)
Definition category_means (data : Ledger) : list (string * Q) :=
  map (fun kg => (fst kg, mean (snd kg))) (groupby String.compare category data).

(** Sample standard deviation ([ddof = 1]); undefined for fewer than
    two observations. *)
Definition std (rows : Ledger) : StdDev :=
  if count rows <=? 1 then SdNaN
  else
    let m := mean rows in
    SdSqrt (Num.sum (map (fun x => sq (x - m)%Q) (amounts rows))
            / inject_Z (count rows - 1))%Q.

(** [groupby('category')['amount'].std()] *)
Definition category_stds (data : Ledger) : list (string * StdDev) :=
  map (fun kg => (fst kg, std (snd kg))) (groupby String.compare category data).

(** [series[label]] and [label in series]. *)
Fixpoint series_get {A} (s : list (string * A)) (label : string) : option A :=
  match s with
  | [] => None
  | (k, v) :: t => if String.eqb k label then Some v else series_get t label
  end.

(** Float division of a number by a standard deviation. *)
Definition div_std (x : Q) (s : StdDev) : ZScore :=
  match s with
  | SdNaN => ZNaN
  | SdSqrt v =>
      if Qeq_bool v 0 then
        (if Qeq_bool x 0 then ZNaN else ZInf (negb (Qle_bool 0 x)))
      else ZRatio x v
  end.

(** [abs(z_score) > threshold]; on a finite z-score [x / sqrt v] the
    comparison is decided on squares. *)
Definition abs_gt (z : ZScore) (threshold : Q) : bool :=
  match z with
  | ZNaN => false
  | ZInf _ => true
  | ZRatio x v =>
      negb (Qle_bool 0 threshold) || Num.gt (sq x) (sq threshold * v)%Q
  end.

Definition detect_anomalies (data : Ledger) (threshold : Q)
    : list (Expense * ZScore) :=
  let category_means := category_means data in
  let category_stds := category_stds data in
  flat_map
    (fun row =>
       match series_get category_means (category row),
             series_get category_stds (category row) with
       | Some m, Some s =>
           let z_score := div_std (amount row - m)%Q s in
           if abs_gt z_score threshold then [(row, z_score)] else []
       | _, _ => []
       end)
    data.

End ExpenseAnalyzer.

(** ** The console, the clock and the disk

    The tracker talks to the user through [input] and [print], reads the
    clock and keeps its ledger in a file.  A computation is a function of
    the world that either returns a value or raises. *)

Inductive Event :=
| Stdout (text : string)
| Prompt (text : string)
| StdoutCategorySummary (rows : list (string * ExpenseAnalyzer.CategoryRow))
| StdoutMonthlySummary (rows : list (Z * Z * ExpenseAnalyzer.MonthRow))
| StdoutAnomalies (rows : list (Expense * ZScore))
| PlotCategoryDistribution (rows : list (string * ExpenseAnalyzer.CategoryRow))
| PlotMonthlyTrends (rows : list (Z * Z * ExpenseAnalyzer.MonthRow))
| PlotSpendingTrend (window : Z) (series : list (Z * cell)).

Inductive File :=
| JsonFile (records : Ledger)
| CsvFile (rows : Ledger).

Record World := mkWorld {
  stdin : list string;
  stdout : list Event;
  disk : gmap string File;
  clock : nat -> Timestamp;
  ticks : nat
}.

Definition M (A : Type) : Type := World -> (exn + A) * World.

Definition ret {A} (a : A) : M A := fun w => (inr a, w).

Definition bind {A B} (c : M A) (k : A -> M B) : M B :=
  fun w =>
    match c w with
    | (inr a, w') => k a w'
    | (inl e, w') => (inl e, w')
    end.

Definition raise {A} (e : exn) : M A := fun w => (inl e, w).

(** [try: body except ValueError: handler] *)
Definition try_except_ValueError {A} (body handler : M A) : M A :=
  fun w =>
    match body w with
    | (inl ValueError, w') => handler w'
    | r => r
    end.

Notation "'do' x <- c ; k" := (bind c (fun x => k))
  (at level 10, x name, c at level 100, k at level 200).
Notation "'do_' c ; k" := (bind c (fun _ => k))
  (at level 10, c at level 100, k at level 200).

Definition emit (ev : Event) : M unit :=
  fun w => (inr tt, mkWorld (stdin w) (stdout w ++ [ev]) (disk w) (clock w) (ticks w)).

Definition print (text : string) : M unit := emit (Stdout text).

(** [input(prompt)]: writes the prompt and reads one line; at the end of
    the input it raises [EOFError]. *)
Definition input (prompt : string) : M string :=
  fun w =>
    let out := stdout w ++ [Prompt prompt] in
    match stdin w with
    | [] => (inl EOFError, mkWorld [] out (disk w) (clock w) (ticks w))
    | line :: rest => (inr line, mkWorld rest out (disk w) (clock w) (ticks w))
    end.

Definition datetime_now : M Timestamp :=
  fun w => (inr (clock w (ticks w)),
            mkWorld (stdin w) (stdout w) (disk w) (clock w) (S (ticks w))).

Definition write_file (filename : string) (f : File) : M unit :=
  fun w => (inr tt, mkWorld (stdin w) (stdout w) (<[filename := f]> (disk w))
                      (clock w) (ticks w)).

Definition read_file (filename : string) : M (option File) :=
  fun w => (inr (disk w !! filename), w).

(** A parser that raises [ValueError] where it yields nothing. *)
Definition parsed {A} (r : option A) : M A :=
  match r with
  | Some a => ret a
  | None => raise ValueError
  end.

Fixpoint for_each {A} (xs : list A) (body : A -> M unit) : M unit :=
  match xs with
  | [] => ret tt
  | x :: t => do_ body x; for_each t body
  end.

Definition nl : string := String (ascii_of_nat 10) EmptyString.

(** ** JSONDataStorage *)

Module JSONDataStorage.

Definition default_filename : string := "expenses_data.json".

Definition save_data (filename : string) (data : Ledger) : M unit :=
  write_file filename (JsonFile data).

Definition load_data (filename : string) : M Ledger :=
  do f <- read_file filename;
  match f with
  | Some (JsonFile records) => ret records
  | Some (CsvFile _) => raise ValueError
  | None => ret []
  end.

End JSONDataStorage.

(** ** ExpenseTracker and the menu

    The texts written to the console are those of the source without
    their pictographs and currency sign.  [float] and [int] are the
    conversions of the language; they yield nothing where the source
    raises [ValueError]. *)

Record Tracker := mkTracker {
  storage : string;
  data : Ledger;
  analyzer : Ledger;
  budget_manager : gmap string Q
}.

Definition lower_ascii (c : ascii) : ascii :=
  let n := nat_of_ascii c in
  if (65 <=? n)%nat && (n <=? 90)%nat then ascii_of_nat (n + 32) else c.

Fixpoint lower (s : string) : string :=
  match s with
  | EmptyString => EmptyString
  | String c t => String (lower_ascii c) (lower t)
  end.

Section ExpenseTracker.

Variable float : string -> option Q.
Variable int : string -> option Z.

Definition init : M Tracker :=
  let storage := JSONDataStorage.default_filename in
  do data <- JSONDataStorage.load_data storage;
  ret (mkTracker storage data data ∅).

Definition alert_line (category : string) (info : BudgetAlert) : string :=
  match info with
  | Overspend _ _ overspend =>
      String.append category
        (String.append ": Overspent by " (Num.format_f 2 overspend))
  | Warning _ _ warning =>
      String.append category (String.append ": " warning)
  end.

(** The alerts are written in the key order of the map; the source
    writes them in the order in which the budgets were first set. *)
Definition check_budgets (tracker : Tracker) : M unit :=
  do now <- datetime_now;
  let violations :=
    BudgetManager.check_budget_violations now (budget_manager tracker)
      (data tracker) in
  match map_to_list violations with
  | [] => ret tt
  | items =>
      do_ print (String.append nl "Budget Alerts:");
      for_each items (fun item => print (alert_line (fst item) (snd item)))
  end.

Definition add_expense (tracker : Tracker) (category : string) (amount : Q)
    (description : string) : M Tracker :=
  do now <- datetime_now;
  let new_expense := mkExpense now category amount description in
  let data' := data tracker ++ [new_expense] in
  do_ JSONDataStorage.save_data (storage tracker) data';
  let tracker' := mkTracker (storage tracker) data' data' (budget_manager tracker) in
  do_ print "Expense added successfully!";
  do_ check_budgets tracker';
  ret tracker'.

(** [data.groupby(data['date'].dt.date)['amount'].sum().mean()] *)
Definition avg_daily (data : Ledger) : cell :=
  let sums :=
    map (fun kg => Num.sum (amounts (snd kg)))
      (groupby Z.compare ExpenseAnalyzer.day_of data) in
  match sums with
  | [] => None
  | _ => Some (Num.sum sums / inject_Z (Z.of_nat (List.length sums)))%Q
  end.

Definition format_cell (decimals : nat) (c : cell) : string :=
  match c with
  | Some x => Num.format_f decimals x
  | None => "nan"
  end.

Definition view_summary (tracker : Tracker) (period : string) : M unit :=
  do_ (if String.eqb period "month" then
         do_ print (String.append nl "Monthly Summary:");
         emit (StdoutMonthlySummary
                 (ExpenseAnalyzer.get_monthly_summary (analyzer tracker)))
       else
         do_ print (String.append nl "Category Summary:");
         emit (StdoutCategorySummary
                 (ExpenseAnalyzer.get_category_summary (analyzer tracker))));
  let total_spent := Num.sum (amounts (data tracker)) in
  do_ print (String.append nl
               (String.append "Total Spent: " (Num.format_f 2 total_spent)));
  print (String.append "Average Daily: "
           (format_cell 2 (avg_daily (data tracker)))).

Definition view_anomalies (tracker : Tracker) : M unit :=
  match ExpenseAnalyzer.detect_anomalies (analyzer tracker) 2.0 with
  | [] => print (String.append nl "No unusual spending patterns detected.")
  | anomalies =>
      do_ print (String.append nl "Spending Anomalies Detected:");
      emit (StdoutAnomalies anomalies)
  end.

Definition set_budget (tracker : Tracker) : M Tracker :=
  do category <- input "Enter category: ";
  try_except_ValueError
    (do text <- input "Enter monthly budget limit: ";
     do limit <- parsed (float text);
     let tracker' :=
       mkTracker (storage tracker) (data tracker) (analyzer tracker)
         (BudgetManager.set_budget (budget_manager tracker) category limit) in
     do_ print (String.append "Budget set for "
                  (String.append category
                     (String.append ": " (Num.format_f 2 limit))));
     ret tracker')
    (do_ print "Invalid amount. Please enter a number.";
     ret tracker).

Definition visualize_data (tracker : Tracker) : M unit :=
  do_ print (String.append nl "Visualization Options:");
  do_ print "1. Category Distribution";
  do_ print "2. Monthly Trends";
  do_ print "3. Spending Trend";
  do choice <- input "Choose option (1-3): ";
  if String.eqb choice "1" then
    emit (PlotCategoryDistribution
            (ExpenseAnalyzer.get_category_summary (analyzer tracker)))
  else if String.eqb choice "2" then
    emit (PlotMonthlyTrends
            (ExpenseAnalyzer.get_monthly_summary (analyzer tracker)))
  else if String.eqb choice "3" then
    do text <- input "Enter rolling window size (default 7): ";
    do window <- parsed (int (if String.eqb text EmptyString then "7" else text));
    match ExpenseAnalyzer.get_spending_trend (analyzer tracker) window with
    | inl e => raise e
    | inr trend => emit (PlotSpendingTrend window trend)
    end
  else ret tt.

Definition export_report (tracker : Tracker) (filename : string) : M unit :=
  do_ write_file filename (CsvFile (data tracker));
  print (String.append "Report exported to " filename).

Definition print_menu : M unit :=
  do_ print (String.append nl "Advanced Expense Tracker");
  do_ print "1. Add Expense";
  do_ print "2. View Summary";
  do_ print "3. Set Budget";
  do_ print "4. Check Anomalies";
  do_ print "5. Visualize Data";
  do_ print "6. Export Report";
  print "7. Exit".

(** One turn of the [while True] loop of [main]; the boolean tells
    whether the loop goes on ([false] after [break]). *)
Definition menu_turn (tracker : Tracker) : M (Tracker * bool) :=
  do_ print_menu;
  do choice <- input "Choose an option (1-7): ";
  if String.eqb choice "1" then
    do category <- input "Enter category: ";
    do tracker' <-
      try_except_ValueError
        (do text <- input "Enter amount: ";
         do amount <- parsed (float text);
         do description <- input "Enter description (optional): ";
         add_expense tracker category amount description)
        (do_ print "Invalid amount. Please enter a number.";
         ret tracker);
    ret (tracker', true)
  else if String.eqb choice "2" then
    do text <- input "View by (month/category): ";
    let period := lower text in
    do_ view_summary tracker
          (if String.eqb period "month" || String.eqb period "category"
           then period else "month");
    ret (tracker, true)
  else if String.eqb choice "3" then
    do tracker' <- set_budget tracker;
    ret (tracker', true)
  else if String.eqb choice "4" then
    do_ view_anomalies tracker;
    ret (tracker, true)
  else if String.eqb choice "5" then
    do_ visualize_data tracker;
    ret (tracker, true)
  else if String.eqb choice "6" then
    do text <- input "Enter filename (default: expense_report.csv): ";
    do_ export_report tracker
          (if String.eqb text EmptyString then "expense_report.csv" else text);
    ret (tracker, true)
  else if String.eqb choice "7" then
    do_ print "Goodbye!";
    ret (tracker, false)
  else
    do_ print "Invalid choice. Please try again.";
    ret (tracker, true).

(** The loop of [main], unrolled at most [fuel] times; [None] when the
    fuel runs out before the loop ends. *)
Fixpoint menu_loop (fuel : nat) (tracker : Tracker) : M (option Tracker) :=
  match fuel with
  | O => ret None
  | S fuel' =>
      do r <- menu_turn tracker;
      if snd r then menu_loop fuel' (fst r) else ret (Some (fst r))
  end.

Definition main (fuel : nat) : M (option Tracker) :=
  do tracker <- init;
  menu_loop fuel tracker.

End ExpenseTracker.

(** ** Notions used to state the properties *)

Definition reported_sums (L : Ledger) : list Q :=
  map (fun r => ExpenseAnalyzer.cat_sum (snd r))
    (ExpenseAnalyzer.get_category_summary L).

Definition group_sums (L : Ledger) : list Q :=
  map (fun g => Num.sum (amounts (snd g))) (groupby String.compare category L).

Definition whole_cents (x : Q) : Prop := exists c : Z, (x == c # 100)%Q.

(** Sum of squared deviations of a group from its mean. *)
Definition squared_deviations (rows : Ledger) : list Q :=
  map (fun x => ExpenseAnalyzer.sq (x - ExpenseAnalyzer.mean rows)%Q) (amounts rows).

(** The world after steps that left [rest] unread and wrote [events],
    and touched neither the disk nor the clock. *)
Definition after_turn (w : World) (rest : list string) (events : list Event)
    : World :=
  mkWorld rest (stdout w ++ events) (disk w) (clock w) (ticks w).

(** The prompt for the number read by menu entry [choice]: the amount
    of entry 1, the limit of entry 3. *)
Definition number_prompt (choice : string) : string :=
  if String.eqb choice "1" then "Enter amount: "
  else "Enter monthly budget limit: ".

(** ** Defined points of a trend *)

Definition is_defined (c : cell) : bool :=
  match c with Some _ => true | None => false end.

Definition defined_points (trend : list (Z * cell)) : nat :=
  List.length (List.filter (fun p => is_defined (snd p)) trend).

(** ** Budget status *)



(** ** Sample data *)

Definition ts (y m d : Z) : Timestamp := mkTimestamp y m d 0.
Definition food (t : Timestamp) (a : Q) : Expense :=
  mkExpense t "Food" a EmptyString.
Definition rent (t : Timestamp) (a : Q) : Expense :=
  mkExpense t "Rent" a EmptyString.

Definition march_20 : Timestamp := ts 2024 3 20.
Definition food_budget (limit : Q) : gmap string Q := {[ "Food"%string := limit ]}.
Definition food_850 : Ledger :=
  [food (ts 2024 3 1) 400; rent (ts 2024 3 1) 700; food (ts 2024 3 9) 450;
   food (ts 2024 2 9) 75].

Definition two_mills : Ledger :=
  [food (ts 2024 3 1) 0.004; rent (ts 2024 3 2) 0.004].

(** ** Conversions for plain decimal numerals

    [float] and [int] restricted to an optional sign, digits and, for
    [float], an optional fraction; enough to run the menu on scripted
    input. *)

Fixpoint split_at_dot (s : string) : string * option string :=
  match s with
  | EmptyString => (EmptyString, None)
  | String c t =>
      if Ascii.eqb c "."%char then (EmptyString, Some t)
      else let r := split_at_dot t in (String c (fst r), snd r)
  end.

Definition digits_value (s : string) : option Z :=
  match s with
  | EmptyString => None
  | _ => option_map (fun u => Z.of_N (N.of_uint u)) (NilEmpty.uint_of_string s)
  end.

Definition digits_or_zero (s : string) : option Z :=
  match s with
  | EmptyString => Some 0
  | _ => digits_value s
  end.

Definition unsigned_decimal (s : string) : option Q :=
  match split_at_dot s with
  | (whole, None) => option_map inject_Z (digits_value whole)
  | (EmptyString, Some EmptyString) => None
  | (whole, Some frac) =>
      match digits_or_zero whole, digits_or_zero frac with
      | Some a, Some b =>
          let scale := 10 ^ Z.of_nat (String.length frac) in
          Some (Qred (Qmake (a * scale + b) (Z.to_pos scale)))
      | _, _ => None
      end
  end.

Definition decimal_float (s : string) : option Q :=
  match s with
  | String "-" t => option_map Qopp (unsigned_decimal t)
  | _ => unsigned_decimal s
  end.

Definition decimal_int (s : string) : option Z :=
  match s with
  | String "-" t => option_map Z.opp (digits_value t)
  | _ => digits_value s
  end.

Definition menu_events : list Event :=
  [Stdout (String.append nl "Advanced Expense Tracker");
   Stdout "1. Add Expense"; Stdout "2. View Summary"; Stdout "3. Set Budget";
   Stdout "4. Check Anomalies"; Stdout "5. Visualize Data";
   Stdout "6. Export Report"; Stdout "7. Exit"].

Definition empty_tracker : Tracker :=
  mkTracker JSONDataStorage.default_filename [] [] ∅.

Definition scripted (lines : list string) : World :=
  mkWorld lines [] ∅ (fun _ => march_20) 0.

Definition three_food : Ledger :=
  [food (ts 2024 3 1) 10; food (ts 2024 3 2) 1000; food (ts 2024 3 5) 12].

(** ** Further notions used to state properties *)

(** [p] is an earlier calendar month than [q]. *)
Definition earlier (p q : Z * Z) : Prop :=
  fst p < fst q \/ (fst p = fst q /\ snd p < snd q).

(** The rows of category [c], as [frame[frame['category'] == c]]. *)
Definition rows_of_category (L : Ledger) (c : string) : Ledger :=
  List.filter (fun e => String.eqb (category e) c) L.

(** The rows made on calendar day [d]. *)
Definition rows_of_day (L : Ledger) (d : Z) : Ledger :=
  List.filter (fun e => ExpenseAnalyzer.day_of e =? d) L.

(** The z-score that [detect_anomalies] computes for a row of [data]. *)
Definition z_score_of (data : Ledger) (row : Expense) : ZScore :=
  let g := group String.compare category data (category row) in
  ExpenseAnalyzer.div_std (amount row - ExpenseAnalyzer.mean g)%Q
    (ExpenseAnalyzer.std g).

(** What [check_budgets] writes for a tracker at time [now]. *)
Definition alert_events (now : Timestamp) (tracker : Tracker) : list Event :=
  match map_to_list
          (BudgetManager.check_budget_violations now (budget_manager tracker)
             (data tracker)) with
  | [] => []
  | items =>
      Stdout (String.append nl "Budget Alerts:")
      :: map (fun item => Stdout (alert_line (fst item) (snd item))) items
  end.

(** The world with file [filename] replaced by [f]. *)
Definition with_file (w : World) (filename : string) (f : File) : World :=
  mkWorld (stdin w) (stdout w) (<[filename := f]> (disk w)) (clock w) (ticks w).

(** The tracker [t'] continues [t]: same store, a ledger that extends
    the ledger of [t], and an analyzer that is fresh if it was. *)
Definition continues (t t' : Tracker) : Prop :=
  storage t' = storage t
  /\ (exists added, data t' = data t ++ added)
  /\ (analyzer t = data t -> analyzer t' = data t').

(** [c] never gives back input it has read, whether it returns or
    raises, and what it returns satisfies [P]. *)
Definition ensures {A} (c : M A) (P : A -> Prop) : Prop :=
  forall w r w',
    c w = (r, w') ->
    (List.length (stdin w') <= List.length (stdin w))%nat
    /\ match r with inr a => P a | inl _ => True end.

(** The lines that are not entries of the menu. *)
Definition menu_choices : list string :=
  ["1"; "2"; "3"; "4"; "5"; "6"; "7"]%string.

(** * Properties *)

(** ** Numbers *)

Lemma gt_true_iff (x y : Q) : Num.gt x y = true <-> (y < x)%Q.
Proof.
  unfold Num.gt. rewrite negb_true_iff.
  destruct (Qle_bool x y) eqn:E.
  - apply Qle_bool_iff in E. split; [discriminate | intros H; lra].
  - split; [intros _ | reflexivity].
    destruct (Qlt_le_dec y x) as [H | H]; [exact H |].
    apply Qle_bool_iff in H. congruence.
Qed.

Lemma gt_false_iff (x y : Q) : Num.gt x y = false <-> (x <= y)%Q.
Proof.
  unfold Num.gt. rewrite negb_false_iff. apply Qle_bool_iff.
Qed.

Lemma round_half_even_Qeq (x y : Q) :
  (x == y)%Q -> Num.round_half_even x = Num.round_half_even y.
Proof.
  destruct x as [nx dx], y as [ny dy]. unfold Qeq, Num.round_half_even. simpl.
  intros E.
  assert (Hfl : nx / Z.pos dx = ny / Z.pos dy).
  { change (Qfloor (nx # dx) = Qfloor (ny # dy)). apply Qfloor_comp. exact E. }
  pose proof (Z.div_mod nx (Z.pos dx) ltac:(lia)) as Hx.
  pose proof (Z.div_mod ny (Z.pos dy) ltac:(lia)) as Hy.
  rewrite <- Hfl in *.
  set (fl := nx / Z.pos dx) in *.
  assert (Hm : nx mod Z.pos dx * Z.pos dy = ny mod Z.pos dy * Z.pos dx) by nia.
  assert (Hc : (2 * (nx mod Z.pos dx) ?= Z.pos dx)
               = (2 * (ny mod Z.pos dy) ?= Z.pos dy)).
  { destruct (Z.compare_spec (2 * (nx mod Z.pos dx)) (Z.pos dx));
      destruct (Z.compare_spec (2 * (ny mod Z.pos dy)) (Z.pos dy));
      try reflexivity; exfalso; nia. }
  rewrite Hc. reflexivity.
Qed.


(** ** The budget evaluator *)

Lemma check_budget_violations_lookup now (budgets : gmap string Q) expenses cat :
  BudgetManager.check_budget_violations now budgets expenses !! cat
  = match budgets !! cat with
    | Some limit =>
        BudgetManager.evaluate (BudgetManager.total_spent now expenses cat) limit
    | None => None
    end.
Proof.
  unfold BudgetManager.check_budget_violations.
  rewrite map_lookup_imap. destruct (budgets !! cat); reflexivity.
Qed.

Lemma evaluate_cases (spent limit : Q) :
  ((limit < spent)%Q
   /\ BudgetManager.evaluate spent limit
      = Some (Overspend limit spent (spent - limit)%Q))
  \/ ((limit * 0.8 < spent)%Q /\ (spent <= limit)%Q
      /\ BudgetManager.evaluate spent limit
         = Some (Warning limit spent (BudgetManager.warning_message spent limit)))
  \/ ((spent <= limit)%Q /\ (spent <= limit * 0.8)%Q
      /\ BudgetManager.evaluate spent limit = None).
Proof.
  unfold BudgetManager.evaluate.
  destruct (Num.gt spent limit) eqn:E1.
  - left. apply gt_true_iff in E1. auto.
  - apply gt_false_iff in E1.
    destruct (Num.gt spent (limit * 0.8)%Q) eqn:E2.
    + right; left. apply gt_true_iff in E2. auto.
    + right; right. apply gt_false_iff in E2. auto.
Qed.








(** C9.  A negative limit is stored as it is, and a category whose limit
    is negative is reported as a violation even when nothing was spent
    in the current month: the entry has spent = 0 and
    overspend = - limit. *)
Theorem negative_limit_zero_spend_violation now (budgets : gmap string Q)
    expenses cat limit :
  (limit < 0)%Q ->
  (BudgetManager.total_spent now expenses cat == 0)%Q ->
  BudgetManager.set_budget budgets cat limit !! cat = Some limit
  /\ exists spent overspend,
       BudgetManager.check_budget_violations now
         (BudgetManager.set_budget budgets cat limit) expenses !! cat
       = Some (Overspend limit spent overspend)
       /\ (spent == 0)%Q /\ (overspend == - limit)%Q.
Proof.
  intros Hneg Hzero.
  assert (Hl : BudgetManager.set_budget budgets cat limit !! cat = Some limit).
  { unfold BudgetManager.set_budget. apply lookup_insert_eq. }
  split; [exact Hl |].
  rewrite check_budget_violations_lookup, Hl.
  destruct (evaluate_cases (BudgetManager.total_spent now expenses cat) limit)
    as [[H1 E] | [[H1 [H2 E]] | [H1 [H2 E]]]].
  - rewrite E. eexists. eexists. split; [reflexivity |]. split; lra.
  - exfalso. lra.
  - exfalso. lra.
Qed.

(** C9 for a budget of -50 on a category without expenses. *)
Lemma negative_limit_zero_spend_violation_witness :
  exists spent overspend,
    BudgetManager.check_budget_violations march_20
      (BudgetManager.set_budget (food_budget 1000) "Travel" (-50)) food_850
      !! "Travel"%string
    = Some (Overspend (-50) spent overspend)
    /\ (spent == 0)%Q /\ (overspend == - (-50))%Q.
Proof.
  apply (negative_limit_zero_spend_violation march_20 (food_budget 1000)
           food_850 "Travel" (-50)).
  - vm_compute. reflexivity.
  - vm_compute. reflexivity.
Defined.

(** ** Grouping: keys are sorted and distinct, groups partition the frame *)

Section GroupByFacts.

Context {K : Type}.
Variable cmp : K -> K -> comparison.
Variable key : Expense -> K.

Hypothesis cmp_eq : forall x y, cmp x y = Eq <-> x = y.
Hypothesis cmp_antisym : forall x y, cmp y x = CompOpp (cmp x y).
Hypothesis cmp_trans : forall x y z, cmp x y = Lt -> cmp y z = Lt -> cmp x z = Lt.

Lemma key_lt_irrefl x : ~ key_lt cmp x x.
Proof.
  unfold key_lt. intros H.
  assert (E : cmp x x = Eq) by (apply cmp_eq; reflexivity).
  congruence.
Qed.

Lemma In_insert_key k x ks : In x (insert_key cmp k ks) <-> x = k \/ In x ks.
Proof.
  induction ks as [| h t IH]; simpl.
  - intuition.
  - destruct (cmp k h) eqn:E; simpl.
    + apply cmp_eq in E. subst h. intuition.
    + intuition.
    + rewrite IH. intuition.
Qed.

Lemma insert_key_sorted k ks :
  StronglySorted (key_lt cmp) ks -> StronglySorted (key_lt cmp) (insert_key cmp k ks).
Proof.
  induction ks as [| h t IH]; simpl; intros Hs.
  - constructor; constructor.
  - apply StronglySorted_inv in Hs. destruct Hs as [Ht Hh].
    destruct (cmp k h) eqn:E.
    + constructor; assumption.
    + constructor; [constructor; assumption |].
      constructor; [exact E |].
      rewrite List.Forall_forall in *. intros y Hy.
      apply (cmp_trans k h y); [exact E | apply Hh; exact Hy].
    + constructor; [apply IH; exact Ht |].
      rewrite List.Forall_forall in *. intros y Hy.
      apply In_insert_key in Hy. destruct Hy as [-> | Hy].
      * unfold key_lt. rewrite cmp_antisym, E. reflexivity.
      * apply Hh. exact Hy.
Qed.

Lemma group_keys_sorted rows : StronglySorted (key_lt cmp) (group_keys cmp key rows).
Proof.
  unfold group_keys. induction rows as [| e rows IH]; simpl.
  - constructor.
  - apply insert_key_sorted. exact IH.
Qed.

Lemma In_group_keys rows k :
  In k (group_keys cmp key rows) <-> exists e, In e rows /\ key e = k.
Proof.
  unfold group_keys. induction rows as [| e rows IH]; simpl.
  - split; [intros [] | intros [e [[] _]]].
  - rewrite In_insert_key, IH. split.
    + intros [-> | [e' [Hin Hk]]]; [exists e | exists e']; auto.
    + intros [e' [[<- | Hin] Hk]]; [left; auto | right; exists e'; auto].
Qed.

Lemma sorted_NoDup ks : StronglySorted (key_lt cmp) ks -> List.NoDup ks.
Proof.
  induction 1 as [| a l Hs IH Hall]; constructor; [| exact IH].
  intros Hin. rewrite List.Forall_forall in Hall.
  apply (key_lt_irrefl a). apply Hall. exact Hin.
Qed.

Lemma group_keys_NoDup rows : List.NoDup (group_keys cmp key rows).
Proof. apply sorted_NoDup. apply group_keys_sorted. Qed.

Lemma has_key_true k e : has_key cmp key k e = true <-> key e = k.
Proof.
  unfold has_key. rewrite <- cmp_eq.
  destruct (cmp (key e) k); split; congruence.
Qed.

Lemma In_group rows k e : In e (group cmp key rows k) <-> In e rows /\ key e = k.
Proof. unfold group. rewrite List.filter_In, has_key_true. reflexivity. Qed.

Lemma groupby_keys rows : map fst (groupby cmp key rows) = group_keys cmp key rows.
Proof.
  unfold groupby. rewrite map_map. simpl. apply map_id.
Qed.

(** The groups of any list of distinct keys that covers the keys of the
    rows hold every row once. *)
Lemma groups_partition ks rows :
  List.NoDup ks -> (forall e, In e rows -> In (key e) ks) ->
  Permutation (concat (map (group cmp key rows) ks)) rows.
Proof.
  revert ks. induction rows as [| e rows IH]; intros ks Hnd Hcov.
  - unfold group. simpl. induction ks as [| k ks IHk]; simpl.
    + constructor.
    + apply IHk.
      * inversion Hnd; assumption.
      * intros e [].
  - assert (Hrows : forall e', In e' rows -> In (key e') ks)
      by (intros e' He'; apply Hcov; right; exact He').
    specialize (IH ks Hnd Hrows).
    assert (Hk : In (key e) ks) by (apply Hcov; left; reflexivity).
    rewrite <- IH at 2. clear IH Hcov Hrows.
    induction ks as [| k ks IHk]; [destruct Hk |].
    inversion Hnd as [| ? ? Hnotin Hnd']; subst.
    simpl. unfold group at 1. simpl.
    destruct (has_key cmp key k e) eqn:E.
    + apply has_key_true in E. simpl. constructor.
      apply Permutation_app_head.
      assert (Hsame : map (group cmp key (e :: rows)) ks
                      = map (group cmp key rows) ks).
      { apply map_ext_in. intros k' Hk'. unfold group. simpl.
        destruct (has_key cmp key k' e) eqn:E'; [| reflexivity].
        apply has_key_true in E'. congruence. }
      rewrite Hsame. reflexivity.
    + assert (Hin : In (key e) ks).
      { destruct Hk as [Hk | Hk]; [| exact Hk].
        assert (has_key cmp key k e = true) by (apply has_key_true; auto).
        congruence. }
      fold (group cmp key rows k).
      rewrite (IHk Hnd' Hin).
      symmetry. apply Permutation_middle.
Qed.

Lemma groupby_partition rows :
  Permutation (concat (map snd (groupby cmp key rows))) rows.
Proof.
  unfold groupby. rewrite map_map. simpl.
  apply groups_partition.
  - apply group_keys_NoDup.
  - intros e He. apply In_group_keys. exists e. auto.
Qed.

End GroupByFacts.

(** ** The two orders used for grouping *)

Lemma string_compare_refl (x : string) : String.compare x x = Eq.
Proof.
  induction x as [| a x IH]; simpl; [reflexivity |].
  assert (E : Ascii.compare a a = Eq).
  { unfold Ascii.compare. apply N.compare_refl. }
  rewrite E. exact IH.
Qed.

Lemma string_compare_eq (x y : string) : String.compare x y = Eq <-> x = y.
Proof.
  split; [apply String.compare_eq_iff | intros ->; apply string_compare_refl].
Qed.

Lemma string_compare_antisym (x y : string) :
  String.compare y x = CompOpp (String.compare x y).
Proof. apply String.compare_antisym. Qed.

Lemma ascii_compare_trans (a b c : ascii) :
  Ascii.compare a b = Lt -> Ascii.compare b c = Lt -> Ascii.compare a c = Lt.
Proof.
  unfold Ascii.compare. rewrite !N.compare_lt_iff. apply N.lt_trans.
Qed.

Lemma string_compare_trans (x y z : string) :
  String.compare x y = Lt -> String.compare y z = Lt -> String.compare x z = Lt.
Proof.
  revert y z. induction x as [| a x IH]; intros [| b y] [| c z]; simpl;
    try congruence.
  destruct (Ascii.compare a b) eqn:Eab; try discriminate;
    destruct (Ascii.compare b c) eqn:Ebc; try discriminate; intros Hxy Hyz.
  - apply Ascii.compare_eq_iff in Eab, Ebc. subst.
    assert (Ecc : Ascii.compare c c = Eq).
    { unfold Ascii.compare. apply N.compare_refl. }
    rewrite Ecc. apply (IH y z); assumption.
  - apply Ascii.compare_eq_iff in Eab. subst. rewrite Ebc. reflexivity.
  - apply Ascii.compare_eq_iff in Ebc. subst. rewrite Eab. reflexivity.
  - rewrite (ascii_compare_trans a b c Eab Ebc). reflexivity.
Qed.

Lemma period_compare_eq (p q : Z * Z) : period_compare p q = Eq <-> p = q.
Proof.
  destruct p as [y1 m1], q as [y2 m2]. unfold period_compare. simpl.
  destruct (Z.compare_spec y1 y2) as [-> | H | H].
  - rewrite Z.compare_eq_iff. split; [intros ->; reflexivity | congruence].
  - split; [discriminate | intros E; inversion E; lia].
  - split; [discriminate | intros E; inversion E; lia].
Qed.

Lemma period_compare_antisym (p q : Z * Z) :
  period_compare q p = CompOpp (period_compare p q).
Proof.
  destruct p as [y1 m1], q as [y2 m2]. unfold period_compare. simpl.
  rewrite (Z.compare_antisym y1 y2), (Z.compare_antisym m1 m2).
  destruct (y1 ?= y2); reflexivity.
Qed.

Lemma period_compare_trans (p q r : Z * Z) :
  period_compare p q = Lt -> period_compare q r = Lt -> period_compare p r = Lt.
Proof.
  destruct p as [y1 m1], q as [y2 m2], r as [y3 m3].
  unfold period_compare. simpl.
  destruct (Z.compare_spec y1 y2), (Z.compare_spec y2 y3),
    (Z.compare_spec y1 y3); subst; try discriminate; try reflexivity;
    try lia; rewrite !Z.compare_lt_iff; lia.
Qed.

(** ** Sums *)

Lemma sum_from (xs : list Q) (a : Q) :
  (fold_left Qplus xs a == a + Num.sum xs)%Q.
Proof.
  unfold Num.sum. revert a. induction xs as [| x xs IH]; intros a; simpl.
  - lra.
  - rewrite (IH (a + x)%Q), (IH (0 + x)%Q). lra.
Qed.

Lemma sum_cons (x : Q) (xs : list Q) : (Num.sum (x :: xs) == x + Num.sum xs)%Q.
Proof.
  unfold Num.sum at 1. simpl. rewrite sum_from. lra.
Qed.

Lemma sum_app (xs ys : list Q) :
  (Num.sum (xs ++ ys) == Num.sum xs + Num.sum ys)%Q.
Proof.
  induction xs as [| x xs IH]; simpl.
  - unfold Num.sum at 2. simpl. lra.
  - rewrite !sum_cons, IH. lra.
Qed.

Lemma sum_Permutation (xs ys : list Q) :
  Permutation xs ys -> (Num.sum xs == Num.sum ys)%Q.
Proof.
  induction 1 as [| x xs ys _ IH | x y xs | xs ys zs _ IH1 _ IH2].
  - reflexivity.
  - rewrite !sum_cons, IH. reflexivity.
  - rewrite !sum_cons. lra.
  - rewrite IH1. exact IH2.
Qed.

(** The sums of the groups add up to the sum of the frame. *)
Lemma sum_of_group_sums (groups : list Ledger) :
  (Num.sum (map (fun g => Num.sum (amounts g)) groups)
   == Num.sum (amounts (concat groups)))%Q.
Proof.
  induction groups as [| g groups IH]; simpl.
  - reflexivity.
  - unfold amounts in *. rewrite sum_cons, map_app, sum_app, IH. reflexivity.
Qed.

Lemma length_of_groups (groups : list Ledger) :
  fold_left Z.add (map ExpenseAnalyzer.count groups) 0
  = ExpenseAnalyzer.count (concat groups).
Proof.
  assert (G : forall a, fold_left Z.add (map ExpenseAnalyzer.count groups) a
                        = a + ExpenseAnalyzer.count (concat groups)).
  { induction groups as [| g groups IH]; intros a; simpl.
    - unfold ExpenseAnalyzer.count. simpl. lia.
    - rewrite IH. unfold ExpenseAnalyzer.count.
      rewrite List.length_app. lia. }
  rewrite G. lia.
Qed.

(** ** Category and monthly summaries *)

Lemma category_summary_keys (L : Ledger) :
  map fst (ExpenseAnalyzer.get_category_summary L)
  = group_keys String.compare category L.
Proof.
  unfold ExpenseAnalyzer.get_category_summary. rewrite map_map. simpl.
  apply groupby_keys.
Qed.

(** C10.  The rows of the category summary are in strictly ascending
    lexicographic order of category name, and there is exactly one row
    for each category that occurs in the ledger. *)
Theorem category_summary_sorted_distinct (L : Ledger) :
  StronglySorted (fun a b => String.compare a b = Lt)
    (map fst (ExpenseAnalyzer.get_category_summary L))
  /\ List.NoDup (map fst (ExpenseAnalyzer.get_category_summary L))
  /\ forall c,
       In c (map fst (ExpenseAnalyzer.get_category_summary L))
       <-> exists e, In e L /\ category e = c.
Proof.
  rewrite category_summary_keys. split; [| split].
  - apply (group_keys_sorted String.compare category);
      [exact string_compare_eq | exact string_compare_antisym
      | exact string_compare_trans].
  - apply (group_keys_NoDup String.compare category);
      [exact string_compare_eq | exact string_compare_antisym
      | exact string_compare_trans].
  - intros c. apply (In_group_keys String.compare category).
    exact string_compare_eq.
Qed.

(** C6.  The buckets of the monthly summary partition the ledger: the
    bucket keys are distinct months, every record lies in the bucket of
    its own month and in no other, the buckets together hold every
    record once, and the counts of the summary add up to the number of
    records. *)
Theorem monthly_buckets_partition (L : Ledger) :
  let buckets := groupby period_compare month_of L in
  let summary := ExpenseAnalyzer.get_monthly_summary L in
  map fst summary = map fst buckets
  /\ map (fun r => ExpenseAnalyzer.month_count (snd r)) summary
     = map (fun b => ExpenseAnalyzer.count (snd b)) buckets
  /\ List.NoDup (map fst buckets)
  /\ (forall e, In e L -> exists g, In (month_of e, g) buckets /\ In e g)
  /\ (forall p g e, In (p, g) buckets -> In e g -> month_of e = p)
  /\ Permutation (concat (map snd buckets)) L
  /\ fold_left Z.add
       (map (fun r => ExpenseAnalyzer.month_count (snd r)) summary) 0
     = Z.of_nat (List.length L).
Proof.
  intros buckets summary.
  assert (Hperm : Permutation (concat (map snd buckets)) L).
  { apply (groupby_partition period_compare month_of);
      [exact period_compare_eq | exact period_compare_antisym
      | exact period_compare_trans]. }
  assert (Hcounts : map (fun r => ExpenseAnalyzer.month_count (snd r)) summary
                    = map (fun b => ExpenseAnalyzer.count (snd b)) buckets).
  { subst summary buckets. unfold ExpenseAnalyzer.get_monthly_summary.
    rewrite map_map. reflexivity. }
  repeat apply conj.
  - subst summary buckets. unfold ExpenseAnalyzer.get_monthly_summary.
    rewrite map_map. reflexivity.
  - exact Hcounts.
  - subst buckets. rewrite groupby_keys.
    apply (group_keys_NoDup period_compare month_of);
      [exact period_compare_eq | exact period_compare_antisym
      | exact period_compare_trans].
  - intros e He. exists (group period_compare month_of L (month_of e)). split.
    + subst buckets. unfold groupby. apply in_map_iff.
      exists (month_of e). split; [reflexivity |].
      apply (In_group_keys period_compare month_of);
        [exact period_compare_eq | exists e; auto].
    + apply (In_group period_compare month_of);
        [exact period_compare_eq | auto].
  - intros p g e Hb Hg. subst buckets. unfold groupby in Hb.
    apply in_map_iff in Hb. destruct Hb as [k [Hk _]]. inversion Hk; subst.
    apply (In_group period_compare month_of) in Hg;
      [tauto | exact period_compare_eq].
  - exact Hperm.
  - rewrite Hcounts.
    rewrite <- (map_map snd ExpenseAnalyzer.count), length_of_groups.
    unfold ExpenseAnalyzer.count. f_equal.
    apply Permutation_length. exact Hperm.
Qed.

(** ** Rounding to cents *)

Lemma round_half_even_near (y : Q) :
  (Qabs (inject_Z (Num.round_half_even y) - y) <= 1 # 2)%Q.
Proof.
  apply Qabs_Qle_condition.
  destruct y as [n d]. unfold Num.round_half_even. simpl.
  pose proof (Z.div_mod n (Z.pos d) ltac:(lia)) as Hdm.
  pose proof (Z.mod_pos_bound n (Z.pos d) ltac:(lia)) as Hb.
  set (fl := n / Z.pos d) in *. set (r := n mod Z.pos d) in *.
  destruct (Z.compare_spec (2 * r) (Z.pos d)) as [E | E | E];
    [destruct (Z.even fl) | |];
    unfold Qle, Qminus, Qplus, Qopp, inject_Z; simpl; split; nia.
Qed.

Lemma round_half_even_inject (x : Q) (k : Z) :
  (x == inject_Z k)%Q -> Num.round_half_even x = k.
Proof.
  intros E. rewrite (round_half_even_Qeq x (inject_Z k) E).
  unfold Num.round_half_even, inject_Z. simpl.
  rewrite Z.div_1_r, Z.mod_1_r. reflexivity.
Qed.

Lemma round2_near (x : Q) : (Qabs (Num.round 2 x - x) <= 1 # 200)%Q.
Proof.
  unfold Num.round. rewrite Qred_correct.
  change (10 ^ Z.of_nat 2) with 100.
  pose proof (round_half_even_near (x * inject_Z 100)) as H.
  apply Qabs_Qle_condition in H. apply Qabs_Qle_condition.
  set (k := inject_Z (Num.round_half_even (x * inject_Z 100))) in *.
  assert (E : (inject_Z 100 == 100)%Q) by reflexivity.
  rewrite E in *.
  assert (E2 : (k / 100 - x == (k - x * 100) * (1 # 100))%Q) by field.
  rewrite E2. split; lra.
Qed.

Lemma round2_whole_cents (x : Q) : whole_cents x -> (Num.round 2 x == x)%Q.
Proof.
  intros [c Hc]. unfold Num.round. rewrite Qred_correct.
  change (10 ^ Z.of_nat 2) with 100.
  rewrite (round_half_even_inject (x * inject_Z 100) c).
  - rewrite Hc. unfold Qeq, Qdiv, Qmult, Qinv, inject_Z. simpl. lia.
  - rewrite Hc. unfold Qeq, Qmult, inject_Z. simpl. lia.
Qed.

Lemma whole_cents_sum (xs : list Q) :
  (forall x, In x xs -> whole_cents x) -> whole_cents (Num.sum xs).
Proof.
  induction xs as [| x xs IH]; intros H.
  - exists 0. reflexivity.
  - destruct (H x (or_introl eq_refl)) as [c Hc].
    destruct IH as [c' Hc']; [intros y Hy; apply H; right; exact Hy |].
    exists (c + c'). rewrite sum_cons, Hc, Hc'.
    unfold Qeq, Qplus. simpl. lia.
Qed.

Lemma sum_map_Qeq {A} (f g : A -> Q) (xs : list A) :
  (forall x, In x xs -> (f x == g x)%Q) ->
  (Num.sum (map f xs) == Num.sum (map g xs))%Q.
Proof.
  induction xs as [| x xs IH]; intros H; simpl.
  - reflexivity.
  - rewrite !sum_cons, (H x (or_introl eq_refl)), IH; [reflexivity |].
    intros y Hy. apply H. right. exact Hy.
Qed.

Lemma sum_map_near {A} (f g : A -> Q) (xs : list A) (eps : Q) :
  (forall x, In x xs -> (Qabs (f x - g x) <= eps)%Q) ->
  (Qabs (Num.sum (map f xs) - Num.sum (map g xs))
   <= eps * inject_Z (Z.of_nat (List.length xs)))%Q.
Proof.
  induction xs as [| x xs IH]; intros H.
  - change (Qabs (0 - 0) <= eps * 0)%Q.
    apply Qabs_Qle_condition. split; lra.
  - pose proof (H x (or_introl eq_refl)) as Hx.
    assert (IH' := IH (fun y Hy => H y (or_intror Hy))). clear IH.
    apply Qabs_Qle_condition in Hx, IH'. apply Qabs_Qle_condition.
    simpl List.length. rewrite Nat2Z.inj_succ, <- Z.add_1_r, inject_Z_plus.
    simpl map. rewrite !sum_cons.
    set (n := inject_Z (Z.of_nat (List.length xs))) in *.
    assert (E1 : (inject_Z 1 == 1)%Q) by reflexivity. rewrite E1.
    split; lra.
Qed.

(** ** Category sums against the total *)

Lemma reported_sums_rounded (L : Ledger) :
  reported_sums L = map (Num.round 2) (group_sums L).
Proof.
  unfold reported_sums, group_sums, ExpenseAnalyzer.get_category_summary.
  rewrite !map_map. reflexivity.
Qed.

Lemma group_sums_total (L : Ledger) :
  (Num.sum (group_sums L) == Num.sum (amounts L))%Q.
Proof.
  unfold group_sums.
  rewrite <- (map_map snd (fun g => Num.sum (amounts g))), sum_of_group_sums.
  apply sum_Permutation. unfold amounts. apply Permutation_map.
  apply (groupby_partition String.compare category);
    [exact string_compare_eq | exact string_compare_antisym
    | exact string_compare_trans].
Qed.

(** C5, the counterexample.  Two categories of 0.004 each: both reported
    sums round to 0, while the ledger totals 0.008. *)
Lemma rounded_category_sums_miss_total :
  (Num.sum (reported_sums two_mills) == 0)%Q
  /\ (Num.sum (amounts two_mills) == 0.008)%Q
  /\ ~ (Num.sum (reported_sums two_mills) == Num.sum (amounts two_mills))%Q.
Proof.
  split; [| split].
  - vm_compute. reflexivity.
  - vm_compute. reflexivity.
  - vm_compute. discriminate.
Qed.

(** C5, as amended.  The [sum] fields of the category summary are the
    per-category sums rounded to two decimals.  Before rounding the
    per-category sums add up to the total of the ledger; the reported
    sums add up to the total when every amount is a whole number of
    cents, and otherwise miss it by at most 0.005 per category. *)
Theorem category_sums_against_total (L : Ledger) :
  reported_sums L = map (Num.round 2) (group_sums L)
  /\ (Num.sum (group_sums L) == Num.sum (amounts L))%Q
  /\ ((forall e, In e L -> whole_cents (amount e)) ->
      (Num.sum (reported_sums L) == Num.sum (amounts L))%Q)
  /\ (Qabs (Num.sum (reported_sums L) - Num.sum (amounts L))
      <= (1 # 200) * inject_Z (Z.of_nat (List.length (reported_sums L))))%Q.
Proof.
  split; [apply reported_sums_rounded |].
  split; [apply group_sums_total |].
  rewrite reported_sums_rounded, <- group_sums_total. split.
  - intros Hc.
    rewrite <- (map_id (group_sums L)) at 2.
    apply sum_map_Qeq. intros s Hs. apply round2_whole_cents.
    unfold group_sums in Hs. apply in_map_iff in Hs.
    destruct Hs as [[k g] [<- Hg]]. simpl.
    apply whole_cents_sum. intros x Hx.
    unfold amounts in Hx. apply in_map_iff in Hx. destruct Hx as [e [<- He]].
    apply Hc.
    unfold groupby in Hg. apply in_map_iff in Hg. destruct Hg as [k' [Hk' _]].
    inversion Hk'; subst. unfold group in He.
    apply List.filter_In in He. tauto.
  - rewrite List.length_map.
    rewrite <- (map_id (group_sums L)) at 2.
    apply sum_map_near. intros s _. apply round2_near.
Qed.

(** C5 as amended, on a ledger of whole amounts. *)
Lemma category_sums_against_total_witness :
  (Num.sum (reported_sums food_850) == Num.sum (amounts food_850))%Q.
Proof.
  apply (category_sums_against_total food_850).
  intros e He. unfold food_850 in He. cbn [In] in He.
  destruct He as [<- | [<- | [<- | [<- | []]]]]; cbn [amount food rent].
  - exists 40000. reflexivity.
  - exists 70000. reflexivity.
  - exists 45000. reflexivity.
  - exists 7500. reflexivity.
Defined.

(** ** The daily series *)

Lemma fold_min_le (ds : list Z) (d0 : Z) :
  fold_left Z.min ds d0 <= d0
  /\ forall d, In d ds -> fold_left Z.min ds d0 <= d.
Proof.
  revert d0. induction ds as [| x ds IH]; intros d0; simpl.
  - split; [lia | intros d []].
  - destruct (IH (Z.min d0 x)) as [H1 H2]. split; [lia |].
    intros d [<- | Hd]; [lia | apply H2; exact Hd].
Qed.

Lemma fold_max_ge (ds : list Z) (d0 : Z) :
  d0 <= fold_left Z.max ds d0
  /\ forall d, In d ds -> d <= fold_left Z.max ds d0.
Proof.
  revert d0. induction ds as [| x ds IH]; intros d0; simpl.
  - split; [lia | intros d []].
  - destruct (IH (Z.max d0 x)) as [H1 H2]. split; [lia |].
    intros d [<- | Hd]; [lia | apply H2; exact Hd].
Qed.

(** The daily series of a ledger that is not empty has one entry for
    each calendar day from the first to the last day on which a record
    was made, and the days are consecutive. *)
Lemma daily_data_spans_range (e : Expense) (rest : Ledger) :
  let data := e :: rest in
  let lo := ExpenseAnalyzer.min_day data (ExpenseAnalyzer.day_of e) in
  let hi := ExpenseAnalyzer.max_day data (ExpenseAnalyzer.day_of e) in
  (forall x, In x data -> lo <= ExpenseAnalyzer.day_of x <= hi)
  /\ Z.of_nat (List.length (ExpenseAnalyzer.daily_data data)) = hi - lo + 1
  /\ map fst (ExpenseAnalyzer.daily_data data)
     = map (fun i => lo + Z.of_nat i)
         (seq 0 (List.length (ExpenseAnalyzer.daily_data data))).
Proof.
  intros data lo hi.
  destruct (fold_min_le (map ExpenseAnalyzer.day_of data) (ExpenseAnalyzer.day_of e))
    as [Hlo1 Hlo2].
  destruct (fold_max_ge (map ExpenseAnalyzer.day_of data) (ExpenseAnalyzer.day_of e))
    as [Hhi1 Hhi2].
  fold (ExpenseAnalyzer.min_day data (ExpenseAnalyzer.day_of e)) in Hlo1, Hlo2.
  fold (ExpenseAnalyzer.max_day data (ExpenseAnalyzer.day_of e)) in Hhi1, Hhi2.
  fold lo in Hlo1, Hlo2. fold hi in Hhi1, Hhi2.
  assert (Hlen : List.length (ExpenseAnalyzer.daily_data data)
                 = Z.to_nat (hi - lo + 1)).
  { unfold ExpenseAnalyzer.daily_data, data.
    rewrite List.length_map, List.length_seq. reflexivity. }
  split; [| split].
  - intros x Hx. split; [apply Hlo2 | apply Hhi2]; apply in_map; exact Hx.
  - rewrite Hlen. lia.
  - rewrite Hlen. unfold ExpenseAnalyzer.daily_data, data.
    rewrite map_map. reflexivity.
Qed.

Lemma filter_none {A} (f : A -> bool) (l : list A) :
  (forall x, In x l -> f x = false) -> List.filter f l = [].
Proof.
  induction l as [| x l IH]; intros H; [reflexivity |].
  cbn [List.filter]. rewrite (H x (or_introl eq_refl)).
  apply IH. intros y Hy. apply H. right. exact Hy.
Qed.

(** A day of the range without records has total 0. *)
Lemma daily_data_gap (data : Ledger) (d : Z) (total : Q) :
  In (d, total) (ExpenseAnalyzer.daily_data data) ->
  (forall e, In e data -> ExpenseAnalyzer.day_of e <> d) ->
  total = 0%Q.
Proof.
  intros Hin Hgap. destruct data as [| e rest]; [destruct Hin |].
  unfold ExpenseAnalyzer.daily_data in Hin.
  apply in_map_iff in Hin. destruct Hin as [i [Hi _]].
  pose proof (f_equal fst Hi) as Hd. pose proof (f_equal snd Hi) as Ht.
  cbn [fst snd] in Hd, Ht. rewrite Hd in Ht.
  rewrite <- Ht, filter_none; [reflexivity |].
  intros x Hx. apply Z.eqb_neq. apply Hgap. exact Hx.
Qed.

(** ** Rolling trend *)

Lemma window_mean_defined (w : nat) (xs : list Q) (i : nat) :
  (1 <= w)%nat -> (i < List.length xs)%nat ->
  is_defined (ExpenseAnalyzer.window_mean w xs i) = (w - 1 <=? i)%nat.
Proof.
  intros Hw Hi. unfold ExpenseAnalyzer.window_mean.
  rewrite List.length_firstn, List.length_skipn.
  destruct (Nat.leb_spec (w - 1) i) as [H | H].
  - replace (Nat.min (i + 1 - (i + 1 - w)) (List.length xs - (i + 1 - w)))
      with w by lia.
    rewrite Nat.leb_refl.
    destruct (Nat.ltb_spec 0 w) as [_ | Hc]; [reflexivity | lia].
  - replace (Nat.min (i + 1 - (i + 1 - w)) (List.length xs - (i + 1 - w)))
      with (i + 1)%nat by lia.
    destruct (Nat.leb_spec w (i + 1)) as [Hc | _]; [lia | reflexivity].
Qed.

Lemma count_from (k n : nat) :
  List.length (List.filter (fun i => (k <=? i)%nat) (seq 0 n)) = (n - k)%nat.
Proof.
  induction n as [| n IH]; [reflexivity |].
  rewrite seq_S, List.filter_app, List.length_app, IH. simpl.
  destruct (Nat.leb_spec k n); simpl; lia.
Qed.

Lemma rolling_mean_ok (w : Z) (series : list (Z * Q)) :
  0 <= w ->
  ExpenseAnalyzer.rolling_mean w series
  = inr (map (fun i => (fst (nth i series (0, 0%Q)),
                        ExpenseAnalyzer.window_mean (Z.to_nat w)
                          (map snd series) i))
           (seq 0 (List.length series))).
Proof.
  intros Hw. unfold ExpenseAnalyzer.rolling_mean.
  destruct (Z.ltb_spec w 0); [lia | reflexivity].
Qed.

(** C7.  For a window of at least one day, the rolling trend of a
    ledger whose daily series has n days has one point per day, of which
    exactly max(0, n - w + 1) are defined: the first w - 1 points are
    undefined and every later point is defined. *)
Theorem rolling_trend_defined_points (L : Ledger) (w : Z) :
  1 <= w ->
  let n := List.length (ExpenseAnalyzer.daily_data L) in
  exists trend,
    ExpenseAnalyzer.get_spending_trend L w = inr trend
    /\ List.length trend = n
    /\ Z.of_nat (defined_points trend) = Z.max 0 (Z.of_nat n - w + 1)
    /\ (forall i, (i < n)%nat -> Z.of_nat i < w - 1 ->
        snd (nth i trend (0, None)) = None)
    /\ (forall i, (i < n)%nat -> w - 1 <= Z.of_nat i ->
        is_defined (snd (nth i trend (0, None))) = true).
Proof.
  intros Hw n. unfold ExpenseAnalyzer.get_spending_trend.
  rewrite rolling_mean_ok by lia.
  set (series := ExpenseAnalyzer.daily_data L) in *.
  set (w' := Z.to_nat w).
  assert (Hw' : (1 <= w')%nat) by lia.
  set (point := fun i => (fst (nth i series (0, 0%Q)),
                          ExpenseAnalyzer.window_mean w' (map snd series) i)).
  exists (map point (seq 0 n)).
  assert (Hpt : forall i, (i < n)%nat ->
            nth i (map point (seq 0 n)) (0, None) = point i).
  { intros i Hi.
    rewrite (nth_indep _ (0, None) (point 0%nat))
      by (rewrite List.length_map, List.length_seq; exact Hi).
    rewrite (map_nth point), seq_nth by exact Hi. reflexivity. }
  assert (Hdef : forall i, (i < n)%nat ->
            is_defined (snd (point i)) = (w' - 1 <=? i)%nat).
  { intros i Hi. unfold point. simpl. apply window_mean_defined; [exact Hw' |].
    rewrite List.length_map. exact Hi. }
  split; [reflexivity |].
  split; [rewrite List.length_map, List.length_seq; reflexivity |].
  split; [| split].
  - unfold defined_points.
    assert (E : List.filter (fun p => is_defined (snd p)) (map point (seq 0 n))
                = map point (List.filter (fun i => (w' - 1 <=? i)%nat) (seq 0 n))).
    { assert (G : forall l, (forall i, In i l -> (i < n)%nat) ->
                List.filter (fun p => is_defined (snd p)) (map point l)
                = map point (List.filter (fun i => (w' - 1 <=? i)%nat) l)).
      { induction l as [| i l IH]; intros Hl; [reflexivity |].
        cbn [List.filter map].
        rewrite (Hdef i) by (apply Hl; left; reflexivity).
        rewrite IH by (intros j Hj; apply Hl; right; exact Hj).
        destruct (w' - 1 <=? i)%nat; reflexivity. }
      apply G. intros i Hi. apply in_seq in Hi. lia. }
    rewrite E, List.length_map, count_from. lia.
  - intros i Hi Hlt. rewrite (Hpt i Hi).
    specialize (Hdef i Hi).
    destruct (Nat.leb_spec (w' - 1) i) as [Hc | _]; [lia |].
    destruct (snd (point i)); [discriminate | reflexivity].
  - intros i Hi Hge. rewrite (Hpt i Hi), (Hdef i Hi).
    apply Nat.leb_le. lia.
Qed.

(** C7 for a ledger that spans five days and a window of two days. *)
Lemma rolling_trend_defined_points_witness :
  exists trend,
    ExpenseAnalyzer.get_spending_trend three_food 2 = inr trend
    /\ List.length trend = 5%nat
    /\ Z.of_nat (defined_points trend) = 4.
Proof.
  destruct (rolling_trend_defined_points three_food 2 ltac:(lia))
    as [trend [H1 [H2 [H3 _]]]].
  exists trend. split; [exact H1 |]. split; [exact H2 | exact H3].
Defined.

(** ** Anomaly detection *)

Lemma sq_nonneg (x : Q) : (0 <= ExpenseAnalyzer.sq x)%Q.
Proof. unfold ExpenseAnalyzer.sq. nra. Qed.


Lemma sum_nonneg (xs : list Q) :
  (forall x, In x xs -> (0 <= x)%Q) -> (0 <= Num.sum xs)%Q.
Proof.
  induction xs as [| x xs IH]; intros H.
  - unfold Num.sum. simpl. lra.
  - rewrite sum_cons.
    pose proof (H x (or_introl eq_refl)).
    pose proof (IH (fun y Hy => H y (or_intror Hy))). lra.
Qed.



Lemma std_cases (rows : Ledger) :
  (ExpenseAnalyzer.count rows <= 1 /\ ExpenseAnalyzer.std rows = SdNaN)
  \/ (2 <= ExpenseAnalyzer.count rows
      /\ ExpenseAnalyzer.std rows
         = SdSqrt (Num.sum (squared_deviations rows)
                   / inject_Z (ExpenseAnalyzer.count rows - 1))%Q).
Proof.
  unfold ExpenseAnalyzer.std.
  destruct (Z.leb_spec (ExpenseAnalyzer.count rows) 1); [left | right];
    split; try lia; reflexivity.
Qed.

Lemma variance_nonneg (rows : Ledger) :
  2 <= ExpenseAnalyzer.count rows ->
  (0 <= Num.sum (squared_deviations rows)
        / inject_Z (ExpenseAnalyzer.count rows - 1))%Q.
Proof.
  intros Hn. apply Qle_shift_div_l.
  - change 0%Q with (inject_Z 0). rewrite <- Zlt_Qlt. lia.
  - assert (H : (0 <= Num.sum (squared_deviations rows))%Q).
    { apply sum_nonneg. intros x Hx. unfold squared_deviations in Hx.
      apply in_map_iff in Hx. destruct Hx as [y [<- _]]. apply sq_nonneg. }
    lra.
Qed.



Lemma series_get_keys {A} (G : string -> A) (ks : list string) (c : string) :
  ExpenseAnalyzer.series_get (map (fun k => (k, G k)) ks) c
  = if existsb (String.eqb c) ks then Some (G c) else None.
Proof.
  induction ks as [| k ks IH]; simpl; [reflexivity |].
  rewrite (String.eqb_sym c k).
  destruct (String.eqb_spec k c) as [-> | Hne]; simpl; [reflexivity | exact IH].
Qed.

Lemma series_get_grouped {A} (F : Ledger -> A) (data : Ledger) (row : Expense) :
  In row data ->
  ExpenseAnalyzer.series_get
    (map (fun kg => (fst kg, F (snd kg))) (groupby String.compare category data))
    (category row)
  = Some (F (group String.compare category data (category row))).
Proof.
  intros Hin. unfold groupby. rewrite map_map. simpl.
  rewrite (series_get_keys (fun k => F (group String.compare category data k))).
  assert (E : existsb (String.eqb (category row))
                (group_keys String.compare category data) = true).
  { apply existsb_exists. exists (category row). split.
    - apply (In_group_keys String.compare category);
        [exact string_compare_eq | exists row; auto].
    - apply String.eqb_refl. }
  rewrite E. reflexivity.
Qed.

(** What the loop of [detect_anomalies] does with one row of the data. *)
Lemma detect_anomalies_In (data : Ledger) (threshold : Q) (row : Expense)
    (z : ZScore) :
  In (row, z) (ExpenseAnalyzer.detect_anomalies data threshold)
  <-> In row data
      /\ z = ExpenseAnalyzer.div_std
               (amount row
                - ExpenseAnalyzer.mean
                    (group String.compare category data (category row)))%Q
               (ExpenseAnalyzer.std
                  (group String.compare category data (category row)))
      /\ ExpenseAnalyzer.abs_gt z threshold = true.
Proof.
  unfold ExpenseAnalyzer.detect_anomalies. rewrite in_flat_map. split.
  - intros [row' [Hin Hf]].
    unfold ExpenseAnalyzer.category_means, ExpenseAnalyzer.category_stds in Hf.
    rewrite (series_get_grouped ExpenseAnalyzer.mean data row' Hin),
      (series_get_grouped ExpenseAnalyzer.std data row' Hin) in Hf.
    match type of Hf with
    | In _ (if ?b then _ else _) => destruct b eqn:E
    end; [| destruct Hf].
    destruct Hf as [Hf | []]. inversion Hf; subst. auto.
  - intros [Hin [Hz Habs]]. exists row. split; [exact Hin |].
    unfold ExpenseAnalyzer.category_means, ExpenseAnalyzer.category_stds.
    rewrite (series_get_grouped ExpenseAnalyzer.mean data row Hin),
      (series_get_grouped ExpenseAnalyzer.std data row Hin).
    rewrite <- Hz, Habs. left. reflexivity.
Qed.





(** ** Running a computation step by step *)

Lemma run_ret {A B} (a : A) (k : A -> M B) (w : World) :
  bind (ret a) k w = k a w.
Proof. reflexivity. Qed.

Lemma run_raise {A B} (e : exn) (k : A -> M B) (w : World) :
  bind (raise e) k w = (inl e, w).
Proof. reflexivity. Qed.

Lemma run_bind {A B C} (c : M A) (f : A -> M B) (k : B -> M C) (w : World) :
  bind (bind c f) k w = bind c (fun x => bind (f x) k) w.
Proof.
  unfold bind. destruct (c w) as [[e | a] w']; reflexivity.
Qed.

Lemma run_print {B} (text : string) (k : unit -> M B) (w : World) :
  bind (print text) k w = k tt (after_turn w (stdin w) [Stdout text]).
Proof. reflexivity. Qed.

Lemma run_input {B} (prompt : string) (k : string -> M B) (w : World)
    (line : string) (rest : list string) :
  stdin w = line :: rest ->
  bind (input prompt) k w = k line (after_turn w rest [Prompt prompt]).
Proof.
  intros H. unfold bind, input. rewrite H. reflexivity.
Qed.

Lemma after_after (w : World) (r1 r2 : list string) (e1 e2 : list Event) :
  after_turn (after_turn w r1 e1) r2 e2 = after_turn w r2 (e1 ++ e2).
Proof.
  unfold after_turn. cbn [stdin stdout disk clock ticks].
  rewrite <- app_assoc. reflexivity.
Qed.

Lemma after_stdin (w : World) (rest : list string) (events : list Event) :
  stdin (after_turn w rest events) = rest.
Proof. reflexivity. Qed.

Lemma run_print_menu {B} (k : unit -> M B) (w : World) :
  bind print_menu k w = k tt (after_turn w (stdin w) menu_events).
Proof.
  unfold print_menu.
  do 7 (rewrite run_bind, run_print; cbv beta;
        rewrite ?after_after, ?after_stdin).
  rewrite run_print, after_after, after_stdin. reflexivity.
Qed.

(** A body that raises [ValueError] hands over to the handler. *)
Lemma run_handler {A} (body handler : M A) (w w' : World) :
  body w = (inl ValueError, w') ->
  try_except_ValueError body handler w = handler w'.
Proof.
  intros H. unfold try_except_ValueError. rewrite H. reflexivity.
Qed.

Lemma run_except {A B} (body handler : M A) (k : A -> M B) (w w' : World) :
  body w = (inl ValueError, w') ->
  bind (try_except_ValueError body handler) k w = bind handler k w'.
Proof.
  intros H. unfold bind at 1. rewrite (run_handler body handler w w' H).
  reflexivity.
Qed.

(** ** The menu on invalid numbers *)

Example decimal_float_examples :
  decimal_float "850" = Some 850%Q
  /\ decimal_float "-0.25" = Some (-1 # 4)%Q
  /\ decimal_float "1." = Some 1%Q
  /\ decimal_float "." = None
  /\ decimal_float "abc" = None
  /\ decimal_float EmptyString = None.
Proof. repeat split; vm_compute; reflexivity. Qed.

(** A scripted session: a budget of 1000 for Food, an expense of 850,
    a second expense whose amount is not a number, then exit.  The
    ledger and the file hold the one valid expense, and the alert of the
    first expense was written. *)
Example scripted_session :
  let r := main decimal_float decimal_int 10
             (scripted ["3"; "Food"; "1000"; "1"; "Food"; "850"; "lunch";
                        "1"; "Food"; "x"; "7"])%string in
  match fst r with
  | inr (Some t) =>
      data t = [mkExpense march_20 "Food" 850 "lunch"]
      /\ budget_manager t !! "Food"%string = Some 1000%Q
      /\ disk (snd r) !! "expenses_data.json"%string = Some (JsonFile (data t))
      /\ In (Stdout "Food: Approaching budget limit (85.0%)") (stdout (snd r))
      /\ stdin (snd r) = []
  | _ => False
  end.
Proof.
  vm_compute. repeat split. do 26 right. left. reflexivity.
Qed.

Section InvalidNumber.

Variable float : string -> option Q.
Variable int : string -> option Z.

Lemma add_expense_invalid_amount tracker w cat text rest :
  float text = None ->
  stdin w = "1"%string :: cat :: text :: rest ->
  menu_turn float int tracker w
  = (inr (tracker, true),
     after_turn w rest
       (menu_events
        ++ [Prompt "Choose an option (1-7): "; Prompt "Enter category: ";
            Prompt "Enter amount: ";
            Stdout "Invalid amount. Please enter a number."])).
Proof.
  intros Hf Hin. unfold menu_turn.
  rewrite run_print_menu.
  rewrite (run_input _ _ _ "1"%string (cat :: text :: rest)) by exact Hin.
  rewrite String.eqb_refl.
  rewrite (run_input _ _ _ cat (text :: rest)) by reflexivity.
  rewrite !after_after.
  rewrite (run_except _ _ _ _
             (after_turn w rest
                ((menu_events ++ [Prompt "Choose an option (1-7): "]
                  ++ [Prompt "Enter category: "])
                 ++ [Prompt "Enter amount: "]))).
  - rewrite run_bind, run_print. cbv beta. rewrite run_ret.
    rewrite after_stdin, !after_after, <- ?app_assoc. reflexivity.
  - rewrite (run_input _ _ _ text rest) by reflexivity.
    rewrite Hf. unfold parsed. rewrite run_raise, after_after.
    reflexivity.
Qed.

Lemma set_budget_invalid_limit tracker w cat text rest :
  float text = None ->
  stdin w = cat :: text :: rest ->
  set_budget float tracker w
  = (inr tracker,
     after_turn w rest
       [Prompt "Enter category: "; Prompt "Enter monthly budget limit: ";
        Stdout "Invalid amount. Please enter a number."]).
Proof.
  intros Hf Hin. unfold set_budget.
  rewrite (run_input _ _ _ cat (text :: rest)) by exact Hin.
  rewrite (run_handler _ _ _
             (after_turn w rest
                ([Prompt "Enter category: "]
                 ++ [Prompt "Enter monthly budget limit: "]))).
  - rewrite run_print. cbv beta. unfold ret.
    rewrite after_stdin, !after_after. reflexivity.
  - rewrite (run_input _ _ _ text rest) by reflexivity.
    rewrite Hf. unfold parsed. rewrite run_raise, after_after.
    reflexivity.
Qed.

Lemma menu_set_budget_invalid_limit tracker w cat text rest :
  float text = None ->
  stdin w = "3"%string :: cat :: text :: rest ->
  menu_turn float int tracker w
  = (inr (tracker, true),
     after_turn w rest
       (menu_events
        ++ [Prompt "Choose an option (1-7): "; Prompt "Enter category: ";
            Prompt "Enter monthly budget limit: ";
            Stdout "Invalid amount. Please enter a number."])).
Proof.
  intros Hf Hin. unfold menu_turn.
  rewrite run_print_menu.
  rewrite (run_input _ _ _ "3"%string (cat :: text :: rest)) by exact Hin.
  change (String.eqb "3" "1") with false.
  change (String.eqb "3" "2") with false.
  rewrite String.eqb_refl. cbv iota.
  unfold bind at 1.
  rewrite (set_budget_invalid_limit tracker _ cat text rest Hf) by reflexivity.
  unfold ret. rewrite !after_after, <- ?app_assoc. reflexivity.
Qed.

Lemma menu_loop_step fuel tracker w tracker' w' :
  menu_turn float int tracker w = (inr (tracker', true), w') ->
  menu_loop float int (S fuel) tracker w = menu_loop float int fuel tracker' w'.
Proof.
  intros H. cbn [menu_loop]. unfold bind at 1. rewrite H. reflexivity.
Qed.

End InvalidNumber.

(** C8.  When the text entered as the amount of a new expense, or as
    the limit of a budget, is not a number, the operation ends with the
    message "Invalid amount. Please enter a number." and changes
    nothing: the tracker (ledger, analyzer and budgets) is returned as
    it was, the disk is untouched, only the lines read are consumed, and
    the menu loop goes on to its next turn with the same tracker. *)
Theorem invalid_number_changes_nothing (float : string -> option Q)
    (int : string -> option Z) (tracker : Tracker) (w : World)
    (cat text : string) (rest : list string) (choice : string) :
  float text = None ->
  (choice = "1" \/ choice = "3")%string ->
  stdin w = choice :: cat :: text :: rest ->
  let written :=
    menu_events
    ++ [Prompt "Choose an option (1-7): "; Prompt "Enter category: ";
        Prompt (number_prompt choice);
        Stdout "Invalid amount. Please enter a number."] in
  let w' := after_turn w rest written in
  menu_turn float int tracker w = (inr (tracker, true), w')
  /\ disk w' = disk w
  /\ stdin w' = rest
  /\ (forall fuel,
        menu_loop float int (S fuel) tracker w
        = menu_loop float int fuel tracker w').
Proof.
  intros Hf Hc Hin written w'.
  assert (H : menu_turn float int tracker w = (inr (tracker, true), w')).
  { subst w' written. destruct Hc as [-> | ->].
    - exact (add_expense_invalid_amount float int tracker w cat text rest Hf Hin).
    - exact (menu_set_budget_invalid_limit float int tracker w cat text rest
               Hf Hin). }
  split; [exact H |]. split; [reflexivity |]. split; [reflexivity |].
  intros fuel. apply menu_loop_step. exact H.
Qed.

(** C8 for the amount "twelve" entered at menu entry 1. *)
Lemma invalid_number_changes_nothing_witness :
  menu_turn decimal_float decimal_int empty_tracker
    (scripted ["1"; "Food"; "twelve"; "7"])%string
  = (inr (empty_tracker, true),
     after_turn (scripted ["1"; "Food"; "twelve"; "7"])%string ["7"%string]
       (menu_events
        ++ [Prompt "Choose an option (1-7): "; Prompt "Enter category: ";
            Prompt "Enter amount: ";
            Stdout "Invalid amount. Please enter a number."])).
Proof.
  apply (invalid_number_changes_nothing decimal_float decimal_int
           empty_tracker (scripted ["1"; "Food"; "twelve"; "7"])%string
           "Food" "twelve" ["7"%string] "1").
  - vm_compute. reflexivity.
  - left. reflexivity.
  - reflexivity.
Defined.

(** ** The threshold test over the reals

    [abs_gt] decides [abs(z_score) > threshold] on squares.  Read over
    the real numbers, with the standard deviation the square root of the
    variance, it is the comparison the source writes. *)

Module RealSemantics.

Import Reals Qreals Lra.
Local Open Scope R_scope.

Lemma abs_gt_ratio_real (x v t : Q) :
  (0 < v)%Q ->
  ExpenseAnalyzer.abs_gt (ZRatio x v) t = true
  <-> Q2R t < Rabs (Q2R x / sqrt (Q2R v)).
Proof.
  intros Hv.
  assert (HV : 0 < Q2R v)
    by (rewrite <- RMicromega.Q2R_0; apply Qlt_Rlt; exact Hv).
  pose proof (sqrt_lt_R0 _ HV) as Hs.
  pose proof (sqrt_sqrt (Q2R v) (Rlt_le _ _ HV)) as Hss.
  set (s := sqrt (Q2R v)) in *.
  set (a := Q2R x / s).
  assert (Ha : a * s = Q2R x) by (unfold a; field; lra).
  pose proof (Rabs_pos a) as Hq.
  assert (Hqq : Rabs a * Rabs a = a * a).
  { unfold Rabs. destruct (Rcase_abs a); ring. }
  assert (Hs2 : 0 < s * s) by (apply Rmult_lt_0_compat; assumption).
  unfold ExpenseAnalyzer.abs_gt.
  rewrite orb_true_iff, negb_true_iff, gt_true_iff.
  destruct (Qle_bool 0 t) eqn:Et.
  - apply Qle_bool_iff in Et. apply Qle_Rle in Et.
    rewrite RMicromega.Q2R_0 in Et.
    split.
    + intros [Hc | Hlt]; [discriminate |].
      apply Qlt_Rlt in Hlt. unfold ExpenseAnalyzer.sq in Hlt.
      rewrite !Q2R_mult in Hlt. rewrite <- Ha, <- Hss in Hlt.
      assert (H1 : Q2R t * Q2R t < Rabs a * Rabs a).
      { apply (Rmult_lt_reg_r (s * s)); [exact Hs2 |]. rewrite Hqq. lra. }
      destruct (Rlt_le_dec (Q2R t) (Rabs a)) as [H | H]; [exact H |].
      pose proof (Rmult_le_compat _ _ _ _ Hq Hq H H). lra.
    + intros Hlt. right. apply Rlt_Qlt. unfold ExpenseAnalyzer.sq.
      rewrite !Q2R_mult. rewrite <- Ha, <- Hss.
      assert (H1 : Q2R t * Q2R t < Rabs a * Rabs a).
      { pose proof (Rmult_le_0_lt_compat _ _ _ _ Et Et Hlt Hlt). lra. }
      rewrite Hqq in H1.
      pose proof (Rmult_lt_compat_r _ _ _ Hs2 H1). lra.
  - assert (Hneg : Q2R t < 0).
    { rewrite <- RMicromega.Q2R_0. apply Qlt_Rlt.
      destruct (Qlt_le_dec t 0) as [H | H]; [exact H |].
      apply Qle_bool_iff in H. congruence. }
    split; [intros _; lra | intros _; left; reflexivity].
Qed.

End RealSemantics.

(** * Further properties *)

(** ** The budget evaluator *)


Lemma total_spent_without (now : Timestamp) (L1 L2 : Ledger) (e : Expense)
    (cat : string) :
  Calendar.strftime_Ym (date e) <> Calendar.strftime_Ym now
  \/ category e <> cat ->
  BudgetManager.total_spent now (L1 ++ e :: L2) cat
  = BudgetManager.total_spent now (L1 ++ L2) cat.
Proof.
  intros H. unfold BudgetManager.total_spent, BudgetManager.monthly_expenses.
  rewrite !List.filter_app. cbn [List.filter].
  destruct (String.eqb_spec (Calendar.strftime_Ym (date e))
              (Calendar.strftime_Ym now)) as [Hm | Hm]; [| reflexivity].
  cbn [List.filter].
  destruct (String.eqb_spec (category e) cat) as [Hc | Hc]; [| reflexivity].
  destruct H as [H | H]; contradiction.
Qed.

(** X2.  A record of another month, or of another category, has no
    effect on the entry of a category: the check gives the same entry
    with and without it, wherever it stands in the ledger. *)
Theorem other_records_ignored now (budgets : gmap string Q) (L1 L2 : Ledger)
    (e : Expense) (cat : string) :
  Calendar.strftime_Ym (date e) <> Calendar.strftime_Ym now
  \/ category e <> cat ->
  BudgetManager.check_budget_violations now budgets (L1 ++ e :: L2) !! cat
  = BudgetManager.check_budget_violations now budgets (L1 ++ L2) !! cat.
Proof.
  intros H. rewrite !check_budget_violations_lookup.
  rewrite (total_spent_without now L1 L2 e cat H). reflexivity.
Qed.

(** X2 for a Rent record and for a Food record of February, both
    without effect on the Food entry of March. *)
Lemma other_records_ignored_witness :
  BudgetManager.check_budget_violations march_20 (food_budget 1000)
    ([food (ts 2024 3 1) 400] ++ rent (ts 2024 3 1) 700
       :: [food (ts 2024 3 9) 450]) !! "Food"%string
  = BudgetManager.check_budget_violations march_20 (food_budget 1000)
      ([food (ts 2024 3 1) 400] ++ [food (ts 2024 3 9) 450]) !! "Food"%string
  /\ BudgetManager.check_budget_violations march_20 (food_budget 1000)
       ([] ++ food (ts 2024 2 9) 75 :: [food (ts 2024 3 9) 450]) !! "Food"%string
     = BudgetManager.check_budget_violations march_20 (food_budget 1000)
         ([] ++ [food (ts 2024 3 9) 450]) !! "Food"%string.
Proof.
  split.
  - apply other_records_ignored. right. discriminate.
  - apply other_records_ignored. left. vm_compute. discriminate.
Defined.

(** X3.  A category whose limit is zero or positive and that has no
    record in the current month has no entry, whatever the rest of the
    ledger holds. *)
Theorem no_record_no_alert now (budgets : gmap string Q) (expenses : Ledger)
    (cat : string) (limit : Q) :
  budgets !! cat = Some limit ->
  (0 <= limit)%Q ->
  (forall e, In e expenses ->
     Calendar.strftime_Ym (date e) = Calendar.strftime_Ym now ->
     category e <> cat) ->
  BudgetManager.check_budget_violations now budgets expenses !! cat = None.
Proof.
  intros Hb Hpos Hnone.
  assert (Hs : BudgetManager.total_spent now expenses cat = 0%Q).
  { unfold BudgetManager.total_spent.
    rewrite filter_none; [reflexivity |].
    intros e He. unfold BudgetManager.monthly_expenses in He.
    apply List.filter_In in He. destruct He as [He Hm].
    apply String.eqb_eq in Hm. apply String.eqb_neq. apply Hnone; assumption. }
  rewrite check_budget_violations_lookup, Hb, Hs.
  destruct (evaluate_cases 0 limit) as [[H1 E] | [[H1 [H2 E]] | [H1 [H2 E]]]].
  - exfalso. lra.
  - exfalso. lra.
  - exact E.
Qed.

(** X3 for a Travel budget of 300 on a ledger of Food and Rent. *)
Lemma no_record_no_alert_witness :
  BudgetManager.check_budget_violations march_20
    (BudgetManager.set_budget (food_budget 1000) "Travel" 300) food_850
    !! "Travel"%string = None.
Proof.
  apply (no_record_no_alert march_20 _ food_850 "Travel" 300).
  - vm_compute. reflexivity.
  - vm_compute. discriminate.
  - intros e He _. unfold food_850 in He. cbn [In] in He.
    destruct He as [<- | [<- | [<- | [<- | []]]]]; discriminate.
Defined.

(** ** The summaries *)

Lemma group_rows_of_category (L : Ledger) (c : string) :
  group String.compare category L c = rows_of_category L c.
Proof.
  unfold group, rows_of_category. apply List.filter_ext. intros e.
  destruct (String.eqb_spec (category e) c) as [H | H].
  - apply (has_key_true String.compare category); [exact string_compare_eq | exact H].
  - destruct (has_key String.compare category c e) eqn:E; [| reflexivity].
    apply (has_key_true String.compare category) in E;
      [contradiction | exact string_compare_eq].
Qed.

Lemma category_summary_row (L : Ledger) (c : string)
    (row : ExpenseAnalyzer.CategoryRow) :
  In (c, row) (ExpenseAnalyzer.get_category_summary L) ->
  In c (group_keys String.compare category L)
  /\ row = ExpenseAnalyzer.mkCategoryRow
             (Num.round 2 (Num.sum (amounts (rows_of_category L c))))
             (ExpenseAnalyzer.count (rows_of_category L c))
             (Num.round 2 (ExpenseAnalyzer.mean (rows_of_category L c))).
Proof.
  unfold ExpenseAnalyzer.get_category_summary, groupby. rewrite map_map.
  intros H. apply in_map_iff in H. destruct H as [k [Hk Hin]].
  cbn [fst snd] in Hk. rewrite group_rows_of_category in Hk.
  inversion Hk; subst. auto.
Qed.

(** X4.  Every row of the category summary counts exactly the records
    of its category, which are at least one; its sum and its mean are
    within half a cent of the exact sum and mean of those records; and
    the counts of all rows add up to the number of records. *)
Theorem category_rows_exact (L : Ledger) :
  Forall
    (fun r =>
       let g := rows_of_category L (fst r) in
       ExpenseAnalyzer.cat_count (snd r) = Z.of_nat (List.length g)
       /\ 1 <= ExpenseAnalyzer.cat_count (snd r)
       /\ (Qabs (ExpenseAnalyzer.cat_sum (snd r) - Num.sum (amounts g))
           <= 1 # 200)%Q
       /\ (Qabs (ExpenseAnalyzer.cat_mean (snd r)
                 - Num.sum (amounts g) / inject_Z (Z.of_nat (List.length g)))
           <= 1 # 200)%Q)
    (ExpenseAnalyzer.get_category_summary L)
  /\ fold_left Z.add
       (map (fun r => ExpenseAnalyzer.cat_count (snd r))
          (ExpenseAnalyzer.get_category_summary L)) 0
     = Z.of_nat (List.length L).
Proof.
  split.
  - apply List.Forall_forall. intros [c row] Hin. cbn [fst snd].
    apply category_summary_row in Hin. destruct Hin as [Hk ->].
    cbn [ExpenseAnalyzer.cat_count ExpenseAnalyzer.cat_sum ExpenseAnalyzer.cat_mean].
    split; [reflexivity |]. split; [| split].
    + apply (In_group_keys String.compare category) in Hk;
        [| exact string_compare_eq].
      destruct Hk as [e [He Hc]].
      assert (Hg : In e (rows_of_category L c)).
      { unfold rows_of_category. apply List.filter_In. split; [exact He |].
        apply String.eqb_eq. exact Hc. }
      unfold ExpenseAnalyzer.count.
      destruct (rows_of_category L c); [destruct Hg | simpl; lia].
    + apply round2_near.
    + apply round2_near.
  - unfold ExpenseAnalyzer.get_category_summary. rewrite map_map.
    cbn [snd ExpenseAnalyzer.cat_count].
    rewrite <- (map_map snd ExpenseAnalyzer.count), length_of_groups.
    unfold ExpenseAnalyzer.count. f_equal. apply Permutation_length.
    apply (groupby_partition String.compare category);
      [exact string_compare_eq | exact string_compare_antisym
      | exact string_compare_trans].
Qed.

Lemma period_compare_earlier (p q : Z * Z) :
  period_compare p q = Lt <-> earlier p q.
Proof.
  destruct p as [y1 m1], q as [y2 m2]. unfold period_compare, earlier. simpl.
  destruct (Z.compare_spec y1 y2) as [-> | H | H].
  - rewrite Z.compare_lt_iff. split; [auto | intros [Hc | [_ Hc]]; [lia | exact Hc]].
  - split; [auto | reflexivity].
  - split; [discriminate | intros [Hc | [Hc _]]; lia].
Qed.

Lemma StronglySorted_weaken {A} (R R' : A -> A -> Prop) (l : list A) :
  (forall x y, R x y -> R' x y) -> StronglySorted R l -> StronglySorted R' l.
Proof.
  intros Himp. induction 1 as [| a l Hs IH Hall]; constructor; [exact IH |].
  rewrite List.Forall_forall in *. intros y Hy. apply Himp, Hall, Hy.
Qed.

(** X5.  The rows of the monthly summary are in chronological order,
    each month strictly earlier than every later row, and there is a row
    for exactly the months in which the ledger has a record. *)
Theorem monthly_summary_chronological (L : Ledger) :
  StronglySorted earlier (map fst (ExpenseAnalyzer.get_monthly_summary L))
  /\ forall p,
       In p (map fst (ExpenseAnalyzer.get_monthly_summary L))
       <-> exists e, In e L /\ month_of e = p.
Proof.
  assert (Hk : map fst (ExpenseAnalyzer.get_monthly_summary L)
               = group_keys period_compare month_of L).
  { unfold ExpenseAnalyzer.get_monthly_summary. rewrite map_map. simpl.
    apply groupby_keys. }
  rewrite Hk. split.
  - apply (StronglySorted_weaken (key_lt period_compare)).
    + intros x y Hxy. apply period_compare_earlier. exact Hxy.
    + apply (group_keys_sorted period_compare month_of);
        [exact period_compare_eq | exact period_compare_antisym
        | exact period_compare_trans].
  - intros p. apply (In_group_keys period_compare month_of).
    exact period_compare_eq.
Qed.

(** ** The daily series *)

Lemma fold_min_attained (ds : list Z) (d0 : Z) :
  fold_left Z.min ds d0 = d0 \/ In (fold_left Z.min ds d0) ds.
Proof.
  revert d0. induction ds as [| x ds IH]; intros d0; simpl; [left; reflexivity |].
  destruct (IH (Z.min d0 x)) as [H | H]; [| right; right; exact H].
  rewrite H. destruct (Z.min_spec d0 x) as [[_ E] | [_ E]]; rewrite E; auto.
Qed.

Lemma fold_max_attained (ds : list Z) (d0 : Z) :
  fold_left Z.max ds d0 = d0 \/ In (fold_left Z.max ds d0) ds.
Proof.
  revert d0. induction ds as [| x ds IH]; intros d0; simpl; [left; reflexivity |].
  destruct (IH (Z.max d0 x)) as [H | H]; [| right; right; exact H].
  rewrite H. destruct (Z.max_spec d0 x) as [[_ E] | [_ E]]; rewrite E; auto.
Qed.

Lemma z_compare_antisym (x y : Z) : (y ?= x) = CompOpp (x ?= y).
Proof. apply Z.compare_antisym. Qed.

Lemma z_compare_trans (x y z : Z) :
  (x ?= y) = Lt -> (y ?= z) = Lt -> (x ?= z) = Lt.
Proof. rewrite !Z.compare_lt_iff. apply Z.lt_trans. Qed.

Lemma group_rows_of_day (L : Ledger) (d : Z) :
  group Z.compare ExpenseAnalyzer.day_of L d = rows_of_day L d.
Proof.
  unfold group, rows_of_day, has_key. apply List.filter_ext. intros e.
  destruct (Z.eqb_spec (ExpenseAnalyzer.day_of e) d) as [-> | H].
  - rewrite Z.compare_refl. reflexivity.
  - destruct (Z.compare_spec (ExpenseAnalyzer.day_of e) d);
      [contradiction | reflexivity | reflexivity].
Qed.

Lemma consecutive_days_NoDup (lo : Z) (a n : nat) :
  List.NoDup (map (fun i => lo + Z.of_nat i) (seq a n)).
Proof.
  revert a. induction n as [| n IH]; intros a; simpl; constructor.
  - intros Hin. apply in_map_iff in Hin. destruct Hin as [i [Hi Hs]].
    apply in_seq in Hs. lia.
  - apply IH.
Qed.

Lemma daily_data_days (L : Ledger) :
  ExpenseAnalyzer.daily_data L
  = map (fun d => (d, Num.sum (amounts (rows_of_day L d))))
      (map fst (ExpenseAnalyzer.daily_data L)).
Proof.
  destruct L as [| e L]; [reflexivity |].
  unfold ExpenseAnalyzer.daily_data. rewrite !map_map. reflexivity.
Qed.

Lemma daily_data_covers (L : Ledger) (e : Expense) :
  In e L -> In (ExpenseAnalyzer.day_of e) (map fst (ExpenseAnalyzer.daily_data L)).
Proof.
  intros He. destruct L as [| e0 L]; [destruct He |].
  destruct (daily_data_spans_range e0 L) as [Hr [Hlen Hdays]].
  rewrite Hdays. apply in_map_iff.
  specialize (Hr e He).
  exists (Z.to_nat (ExpenseAnalyzer.day_of e
                    - ExpenseAnalyzer.min_day (e0 :: L) (ExpenseAnalyzer.day_of e0))).
  split; [lia |]. apply in_seq. lia.
Qed.

Lemma daily_data_NoDup (L : Ledger) :
  List.NoDup (map fst (ExpenseAnalyzer.daily_data L)).
Proof.
  destruct L as [| e0 L]; [constructor |].
  destruct (daily_data_spans_range e0 L) as [_ [_ Hdays]].
  rewrite Hdays. apply consecutive_days_NoDup.
Qed.

(** X6.  The daily series has one entry for each calendar day from the
    first to the last day of the ledger, in order and without gaps; the
    entry of a day is the sum of the amounts recorded on that day; and
    the entries add up to the total of the ledger. *)
Theorem daily_series_conserves_total (L : Ledger) :
  let series := ExpenseAnalyzer.daily_data L in
  (forall i, (S i < List.length series)%nat ->
     fst (nth (S i) series (0, 0%Q)) = fst (nth i series (0, 0%Q)) + 1)
  /\ (forall e, In e L -> In (ExpenseAnalyzer.day_of e) (map fst series))
  /\ (forall d total, In (d, total) series ->
        total = Num.sum (amounts (rows_of_day L d))
        /\ exists e1 e2, In e1 L /\ In e2 L
             /\ ExpenseAnalyzer.day_of e1 <= d <= ExpenseAnalyzer.day_of e2)
  /\ (Num.sum (map snd series) == Num.sum (amounts L))%Q.
Proof.
  intros series. split; [| split; [| split]].
  - intros i Hi. subst series. destruct L as [| e0 L]; [simpl in Hi; lia |].
    unfold ExpenseAnalyzer.daily_data in *.
    rewrite List.length_map, List.length_seq in Hi.
    set (f := fun i0 : nat => _).
    rewrite (nth_indep _ (0, 0%Q) (f 0%nat))
      by (rewrite List.length_map, List.length_seq; lia).
    rewrite (nth_indep _ (0, 0%Q) (f 0%nat))
      by (rewrite List.length_map, List.length_seq; lia).
    rewrite !(map_nth f), !seq_nth by lia.
    unfold f. cbn [fst]. lia.
  - intros e He. apply daily_data_covers. exact He.
  - intros d total Hin. split.
    + subst series. rewrite daily_data_days in Hin.
      apply in_map_iff in Hin. destruct Hin as [d' [Hd _]].
      inversion Hd; subst. reflexivity.
    + subst series. destruct L as [| e0 L]; [destruct Hin |].
      assert (Hd : In d (map fst (ExpenseAnalyzer.daily_data (e0 :: L))))
        by (apply in_map_iff; exists (d, total); auto).
      destruct (daily_data_spans_range e0 L) as [_ [Hlen Hdays]].
      rewrite Hdays in Hd. apply in_map_iff in Hd. destruct Hd as [i [Hi Hs]].
      apply in_seq in Hs.
      destruct (fold_min_attained (map ExpenseAnalyzer.day_of L)
                  (ExpenseAnalyzer.day_of e0)) as [Hm | Hm];
        destruct (fold_max_attained (map ExpenseAnalyzer.day_of L)
                    (ExpenseAnalyzer.day_of e0)) as [HM | HM].
      * exists e0, e0. split; [left; reflexivity |].
        split; [left; reflexivity |].
        unfold ExpenseAnalyzer.min_day, ExpenseAnalyzer.max_day in *.
        cbn [map fold_left] in *.
        rewrite Z.min_id in Hi, Hlen. rewrite Z.max_id in Hlen. lia.
      * apply in_map_iff in HM. destruct HM as [e2 [HM He2]].
        exists e0, e2. split; [left; reflexivity |]. split; [right; exact He2 |].
        unfold ExpenseAnalyzer.min_day, ExpenseAnalyzer.max_day in *.
        cbn [map fold_left] in *.
        rewrite Z.min_id in Hi, Hlen. rewrite Z.max_id in Hlen. lia.
      * apply in_map_iff in Hm. destruct Hm as [e1 [Hm He1]].
        exists e1, e0. split; [right; exact He1 |]. split; [left; reflexivity |].
        unfold ExpenseAnalyzer.min_day, ExpenseAnalyzer.max_day in *.
        cbn [map fold_left] in *.
        rewrite Z.min_id in Hi, Hlen. rewrite Z.max_id in Hlen. lia.
      * apply in_map_iff in Hm. destruct Hm as [e1 [Hm He1]].
        apply in_map_iff in HM. destruct HM as [e2 [HM He2]].
        exists e1, e2. split; [right; exact He1 |]. split; [right; exact He2 |].
        unfold ExpenseAnalyzer.min_day, ExpenseAnalyzer.max_day in *.
        cbn [map fold_left] in *.
        rewrite Z.min_id in Hi, Hlen. rewrite Z.max_id in Hlen. lia.
  - subst series. rewrite daily_data_days at 1. rewrite map_map. cbn [snd].
    set (days := map fst (ExpenseAnalyzer.daily_data L)).
    assert (E : map (fun d => Num.sum (amounts (rows_of_day L d))) days
                = map (fun g => Num.sum (amounts g))
                    (map (group Z.compare ExpenseAnalyzer.day_of L) days)).
    { rewrite map_map. apply map_ext. intros d.
      rewrite group_rows_of_day. reflexivity. }
    rewrite E, sum_of_group_sums.
    apply sum_Permutation. unfold amounts. apply Permutation_map.
    apply (groups_partition Z.compare ExpenseAnalyzer.day_of).
    + exact Z.compare_eq_iff.
    + apply daily_data_NoDup.
    + intros e He. apply daily_data_covers. exact He.
Qed.

(** ** Anomaly detection: order and threshold *)

Lemma detect_anomalies_rows (data rows : Ledger) (threshold : Q) :
  (forall r, In r rows -> In r data) ->
  flat_map
    (fun row =>
       match ExpenseAnalyzer.series_get (ExpenseAnalyzer.category_means data)
               (category row),
             ExpenseAnalyzer.series_get (ExpenseAnalyzer.category_stds data)
               (category row) with
       | Some m, Some s =>
           if ExpenseAnalyzer.abs_gt
                (ExpenseAnalyzer.div_std (amount row - m)%Q s) threshold
           then [(row, ExpenseAnalyzer.div_std (amount row - m)%Q s)] else []
       | _, _ => []
       end) rows
  = map (fun row => (row, z_score_of data row))
      (List.filter
         (fun row => ExpenseAnalyzer.abs_gt (z_score_of data row) threshold)
         rows).
Proof.
  induction rows as [| r rows IH]; intros Hsub; [reflexivity |].
  cbn [flat_map List.filter].
  rewrite IH by (intros x Hx; apply Hsub; right; exact Hx).
  unfold ExpenseAnalyzer.category_means, ExpenseAnalyzer.category_stds.
  rewrite (series_get_grouped ExpenseAnalyzer.mean data r)
    by (apply Hsub; left; reflexivity).
  rewrite (series_get_grouped ExpenseAnalyzer.std data r)
    by (apply Hsub; left; reflexivity).
  fold (z_score_of data r).
  destruct (ExpenseAnalyzer.abs_gt (z_score_of data r) threshold); reflexivity.
Qed.

(** X7.  The detector returns the flagged records in ledger order, each
    once for each time it stands in the ledger and each with the z-score
    of its amount within its category; no record is invented, reordered
    or altered. *)
Theorem anomalies_in_ledger_order (data : Ledger) (threshold : Q) :
  ExpenseAnalyzer.detect_anomalies data threshold
  = map (fun row => (row, z_score_of data row))
      (List.filter
         (fun row => ExpenseAnalyzer.abs_gt (z_score_of data row) threshold)
         data).
Proof.
  unfold ExpenseAnalyzer.detect_anomalies.
  apply detect_anomalies_rows. auto.
Qed.

Lemma abs_gt_antitone (z : ZScore) (t1 t2 : Q) :
  (t1 <= t2)%Q ->
  match z with ZRatio _ v => (0 <= v)%Q | _ => True end ->
  ExpenseAnalyzer.abs_gt z t2 = true -> ExpenseAnalyzer.abs_gt z t1 = true.
Proof.
  intros Ht Hv. destruct z as [| neg | x v]; cbn [ExpenseAnalyzer.abs_gt];
    [auto | auto |].
  rewrite !orb_true_iff, !negb_true_iff, !gt_true_iff.
  destruct (Qle_bool 0 t1) eqn:E1; [| auto].
  apply Qle_bool_iff in E1.
  intros [H | H].
  - exfalso. destruct (Qle_bool 0 t2) eqn:E2; [discriminate |].
    assert (E3 : Qle_bool 0 t2 = true) by (apply Qle_bool_iff; lra).
    congruence.
  - right. unfold ExpenseAnalyzer.sq in *.
    assert (Hsq : (t1 * t1 <= t2 * t2)%Q) by nra.
    assert (Hm : (t1 * t1 * v <= t2 * t2 * v)%Q) by nra.
    lra.
Qed.

(** X8.  Raising the threshold never flags more: every record flagged
    at a threshold is flagged, with the same z-score, at every lower
    threshold. *)
Theorem anomalies_antitone_in_threshold (data : Ledger) (t1 t2 : Q)
    (row : Expense) (z : ZScore) :
  (t1 <= t2)%Q ->
  In (row, z) (ExpenseAnalyzer.detect_anomalies data t2) ->
  In (row, z) (ExpenseAnalyzer.detect_anomalies data t1).
Proof.
  intros Ht Hin. apply detect_anomalies_In in Hin.
  destruct Hin as [Hrow [Hz Habs]].
  apply detect_anomalies_In. split; [exact Hrow |]. split; [exact Hz |].
  apply (abs_gt_antitone z t1 t2 Ht); [| exact Habs].
  rewrite Hz.
  destruct (std_cases (group String.compare category data (category row)))
    as [[_ Hs] | [Hn Hs]]; rewrite Hs; cbn [ExpenseAnalyzer.div_std]; [exact I |].
  match goal with
  | |- context [Qeq_bool ?v 0] => destruct (Qeq_bool v 0)
  end.
  - match goal with
    | |- context [Qeq_bool ?x 0] => destruct (Qeq_bool x 0); exact I
    end.
  - apply variance_nonneg. exact Hn.
Qed.

(** X8 for the record of 1000, flagged at threshold 1.1 and so at 1. *)
Lemma anomalies_antitone_in_threshold_witness :
  In (food (ts 2024 3 2) 1000, ZRatio (1978 # 3) (475368264 # 1458))
    (ExpenseAnalyzer.detect_anomalies three_food 1).
Proof.
  apply (anomalies_antitone_in_threshold three_food 1 1.1).
  - vm_compute. discriminate.
  - vm_compute. left. reflexivity.
Defined.

(** ** Average per day *)

(** X9.  The daily average shown with a summary is undefined exactly
    for the empty ledger; otherwise it is the total of the ledger
    divided by the number of distinct days that have a record, not by
    the number of calendar days the ledger spans. *)
Theorem avg_daily_over_active_days (L : Ledger) :
  let days := group_keys Z.compare ExpenseAnalyzer.day_of L in
  List.NoDup days
  /\ (forall d, In d days <-> exists e, In e L /\ ExpenseAnalyzer.day_of e = d)
  /\ (avg_daily L = None <-> L = [])
  /\ forall a,
       avg_daily L = Some a ->
       (0 < List.length days)%nat
       /\ (a * inject_Z (Z.of_nat (List.length days)) == Num.sum (amounts L))%Q.
Proof.
  intros days.
  assert (Hlen : List.length
                   (map (fun kg => Num.sum (amounts (snd kg)))
                      (groupby Z.compare ExpenseAnalyzer.day_of L))
                 = List.length days).
  { rewrite List.length_map. unfold groupby. rewrite List.length_map.
    reflexivity. }
  assert (Hsum : (Num.sum
                    (map (fun kg => Num.sum (amounts (snd kg)))
                       (groupby Z.compare ExpenseAnalyzer.day_of L))
                  == Num.sum (amounts L))%Q).
  { rewrite <- (map_map snd (fun g => Num.sum (amounts g))), sum_of_group_sums.
    apply sum_Permutation. unfold amounts. apply Permutation_map.
    apply (groupby_partition Z.compare ExpenseAnalyzer.day_of);
      [exact Z.compare_eq_iff | exact z_compare_antisym | exact z_compare_trans]. }
  assert (Hin : forall d, In d days
                  <-> exists e, In e L /\ ExpenseAnalyzer.day_of e = d).
  { intros d. apply (In_group_keys Z.compare ExpenseAnalyzer.day_of).
    exact Z.compare_eq_iff. }
  split; [| split; [exact Hin | split]].
  - apply (group_keys_NoDup Z.compare ExpenseAnalyzer.day_of);
      [exact Z.compare_eq_iff | exact z_compare_antisym | exact z_compare_trans].
  - unfold avg_daily.
    destruct (map (fun kg => Num.sum (amounts (snd kg)))
                (groupby Z.compare ExpenseAnalyzer.day_of L)) as [| s sums] eqn:E.
    + split; [intros _ | reflexivity].
      destruct L as [| e L]; [reflexivity |]. exfalso.
      assert (He : In (ExpenseAnalyzer.day_of e) days)
        by (apply Hin; exists e; split; [left |]; reflexivity).
      simpl in Hlen. destruct days; [destruct He | discriminate].
    + split; [discriminate |]. intros ->. discriminate.
  - intros a Ha. unfold avg_daily in Ha.
    destruct (map (fun kg => Num.sum (amounts (snd kg)))
                (groupby Z.compare ExpenseAnalyzer.day_of L)) as [| s sums] eqn:E;
      [discriminate |].
    inversion Ha as [Ea]. clear Ha.
    assert (Hpos : (0 < List.length days)%nat) by (rewrite <- Hlen; simpl; lia).
    split; [exact Hpos |].
    rewrite <- Hsum, <- Hlen.
    change (List.length (s :: sums)) with (S (List.length sums)).
    assert (Hq : (0 < inject_Z (Z.of_nat (S (List.length sums))))%Q).
    { change 0%Q with (inject_Z 0). rewrite <- Zlt_Qlt. lia. }
    field. lra.
Qed.

(** ** The tracker: adding, budgeting, storing *)

Lemma run_now {B} (k : Timestamp -> M B) (w : World) :
  bind datetime_now k w
  = k (clock w (ticks w))
      (mkWorld (stdin w) (stdout w) (disk w) (clock w) (S (ticks w))).
Proof. reflexivity. Qed.

Lemma run_write {B} (filename : string) (f : File) (k : unit -> M B)
    (w : World) :
  bind (write_file filename f) k w = k tt (with_file w filename f).
Proof. reflexivity. Qed.

Lemma for_each_print {A} (items : list A) (f : A -> string) (w : World) :
  for_each items (fun x => print (f x)) w
  = (inr tt, after_turn w (stdin w) (map (fun x => Stdout (f x)) items)).
Proof.
  revert w. induction items as [| x items IH]; intros w.
  - cbn [for_each map]. unfold ret, after_turn. rewrite app_nil_r.
    destruct w; reflexivity.
  - cbn [for_each map]. rewrite run_print, IH.
    rewrite after_stdin, after_after. reflexivity.
Qed.

Lemma check_budgets_runs (tracker : Tracker) (w : World) :
  check_budgets tracker w
  = (inr tt,
     mkWorld (stdin w)
       (stdout w ++ alert_events (clock w (ticks w)) tracker)
       (disk w) (clock w) (S (ticks w))).
Proof.
  unfold check_budgets. rewrite run_now. unfold alert_events.
  destruct (map_to_list
              (BudgetManager.check_budget_violations (clock w (ticks w))
                 (budget_manager tracker) (data tracker))) as [| item items].
  - unfold ret. cbn [stdout]. rewrite app_nil_r. reflexivity.
  - rewrite run_print.
    rewrite (for_each_print (item :: items)
               (fun it => alert_line (fst it) (snd it))).
    rewrite after_stdin, after_after. reflexivity.
Qed.

Lemma add_expense_runs (tracker : Tracker) (w : World) (cat : string)
    (amt : Q) (descr : string) :
  let data' := data tracker ++ [mkExpense (clock w (ticks w)) cat amt descr] in
  exists w',
    add_expense tracker cat amt descr w
    = (inr (mkTracker (storage tracker) data' data' (budget_manager tracker)), w')
    /\ disk w' !! storage tracker = Some (JsonFile data')
    /\ stdin w' = stdin w.
Proof.
  intros data'. eexists. split.
  - unfold add_expense. rewrite run_now. fold data'.
    unfold JSONDataStorage.save_data. rewrite run_write, run_print.
    unfold bind at 1. rewrite check_budgets_runs.
    unfold ret. reflexivity.
  - cbn [stdin stdout disk clock ticks after_turn with_file].
    split; [apply lookup_insert_eq | reflexivity].
Qed.


(** ** The menu, entry by entry *)

Section MenuFacts.

Variable float : string -> option Q.
Variable int : string -> option Z.

Lemma set_budget_runs tracker w cat text limit rest :
  float text = Some limit ->
  stdin w = cat :: text :: rest ->
  set_budget float tracker w
  = (inr (mkTracker (storage tracker) (data tracker) (analyzer tracker)
            (<[cat := limit]> (budget_manager tracker))),
     after_turn w rest
       [Prompt "Enter category: "; Prompt "Enter monthly budget limit: ";
        Stdout (String.append "Budget set for "
                  (String.append cat
                     (String.append ": " (Num.format_f 2 limit))))]).
Proof.
  intros Hf Hin. unfold set_budget.
  rewrite (run_input _ _ _ cat (text :: rest)) by exact Hin.
  unfold try_except_ValueError.
  rewrite (run_input _ _ _ text rest) by reflexivity.
  rewrite Hf. unfold parsed. rewrite run_ret, run_print. unfold ret.
  rewrite after_stdin, !after_after. reflexivity.
Qed.

Lemma choice_not (choice other : string) :
  (~ In choice menu_choices) -> In other menu_choices ->
  String.eqb choice other = false.
Proof.
  intros Hc Ho. apply String.eqb_neq. intros ->. contradiction.
Qed.

Ltac one_of_choices :=
  unfold menu_choices; cbn [In]; repeat (first [left; reflexivity | right]).

Lemma unknown_choice_runs tracker w choice rest :
  ~ In choice menu_choices ->
  stdin w = choice :: rest ->
  menu_turn float int tracker w
  = (inr (tracker, true),
     after_turn w rest
       (menu_events
        ++ [Prompt "Choose an option (1-7): ";
            Stdout "Invalid choice. Please try again."])).
Proof.
  intros Hc Hin. unfold menu_turn.
  rewrite run_print_menu.
  rewrite (run_input _ _ _ choice rest) by exact Hin.
  rewrite (choice_not choice "1") by (try exact Hc; one_of_choices).
  rewrite (choice_not choice "2") by (try exact Hc; one_of_choices).
  rewrite (choice_not choice "3") by (try exact Hc; one_of_choices).
  rewrite (choice_not choice "4") by (try exact Hc; one_of_choices).
  rewrite (choice_not choice "5") by (try exact Hc; one_of_choices).
  rewrite (choice_not choice "6") by (try exact Hc; one_of_choices).
  rewrite (choice_not choice "7") by (try exact Hc; one_of_choices).
  cbv iota. rewrite run_print. unfold ret.
  rewrite after_stdin, !after_after, <- ?app_assoc. reflexivity.
Qed.

Lemma exit_choice_runs tracker w rest :
  stdin w = "7"%string :: rest ->
  menu_turn float int tracker w
  = (inr (tracker, false),
     after_turn w rest
       (menu_events ++ [Prompt "Choose an option (1-7): "; Stdout "Goodbye!"])).
Proof.
  intros Hin. unfold menu_turn.
  rewrite run_print_menu.
  rewrite (run_input _ _ _ "7"%string rest) by exact Hin.
  change (String.eqb "7" "1") with false.
  change (String.eqb "7" "2") with false.
  change (String.eqb "7" "3") with false.
  change (String.eqb "7" "4") with false.
  change (String.eqb "7" "5") with false.
  change (String.eqb "7" "6") with false.
  rewrite String.eqb_refl. cbv iota. rewrite run_print. unfold ret.
  rewrite after_stdin, !after_after, <- ?app_assoc. reflexivity.
Qed.

Lemma set_budget_turn_runs tracker w cat text limit rest :
  float text = Some limit ->
  stdin w = "3"%string :: cat :: text :: rest ->
  menu_turn float int tracker w
  = (inr (mkTracker (storage tracker) (data tracker) (analyzer tracker)
            (<[cat := limit]> (budget_manager tracker)), true),
     after_turn w rest
       (menu_events
        ++ [Prompt "Choose an option (1-7): "; Prompt "Enter category: ";
            Prompt "Enter monthly budget limit: ";
            Stdout (String.append "Budget set for "
                      (String.append cat
                         (String.append ": " (Num.format_f 2 limit))))])).
Proof.
  intros Hf Hin. unfold menu_turn.
  rewrite run_print_menu.
  rewrite (run_input _ _ _ "3"%string (cat :: text :: rest)) by exact Hin.
  change (String.eqb "3" "1") with false.
  change (String.eqb "3" "2") with false.
  rewrite String.eqb_refl. cbv iota.
  unfold bind at 1.
  rewrite (set_budget_runs tracker _ cat text limit rest Hf) by reflexivity.
  unfold ret. rewrite !after_after, <- ?app_assoc. reflexivity.
Qed.


Lemma window_crash_runs tracker w text rest :
  int (if String.eqb text EmptyString then "7"%string else text) = None ->
  stdin w = "5"%string :: "3"%string :: text :: rest ->
  menu_turn float int tracker w
  = (inl ValueError,
     after_turn w rest
       (menu_events
        ++ [Prompt "Choose an option (1-7): ";
            Stdout (String.append nl "Visualization Options:");
            Stdout "1. Category Distribution"; Stdout "2. Monthly Trends";
            Stdout "3. Spending Trend"; Prompt "Choose option (1-3): ";
            Prompt "Enter rolling window size (default 7): "])).
Proof.
  intros Hint Hin. unfold menu_turn.
  rewrite run_print_menu.
  rewrite (run_input _ _ _ "5"%string ("3"%string :: text :: rest)) by exact Hin.
  change (String.eqb "5" "1") with false.
  change (String.eqb "5" "2") with false.
  change (String.eqb "5" "3") with false.
  change (String.eqb "5" "4") with false.
  rewrite String.eqb_refl. cbv iota.
  unfold visualize_data.
  do 4 (rewrite run_bind, run_print; cbv beta;
        rewrite ?after_after, ?after_stdin).
  rewrite run_bind.
  rewrite (run_input _ _ _ "3"%string (text :: rest)) by reflexivity.
  cbv beta.
  change (String.eqb "3" "1") with false.
  change (String.eqb "3" "2") with false.
  rewrite String.eqb_refl. cbv iota.
  rewrite run_bind.
  rewrite (run_input _ _ _ text rest) by reflexivity.
  cbv beta. rewrite run_bind, Hint. unfold parsed. rewrite run_raise.
  rewrite !after_after, <- ?app_assoc. reflexivity.
Qed.

Lemma menu_loop_raises fuel tracker w e w' :
  menu_turn float int tracker w = (inl e, w') ->
  menu_loop float int (S fuel) tracker w = (inl e, w').
Proof.
  intros H. cbn [menu_loop]. unfold bind at 1. rewrite H. reflexivity.
Qed.

Lemma menu_loop_exits fuel tracker w tracker' w' :
  menu_turn float int tracker w = (inr (tracker', false), w') ->
  menu_loop float int (S fuel) tracker w = (inr (Some tracker'), w').
Proof.
  intros H. cbn [menu_loop]. unfold bind at 1. rewrite H. reflexivity.
Qed.

End MenuFacts.

(** ** What no operation does: giving back input, shrinking the ledger *)

Lemma continues_refl (t : Tracker) : continues t t.
Proof.
  split; [reflexivity |]. split; [exists []; symmetry; apply app_nil_r | auto].
Qed.

Lemma continues_trans (t1 t2 t3 : Tracker) :
  continues t1 t2 -> continues t2 t3 -> continues t1 t3.
Proof.
  intros [Hs1 [[a1 Ha1] Hf1]] [Hs2 [[a2 Ha2] Hf2]].
  split; [congruence |]. split; [| auto].
  exists (a1 ++ a2). rewrite Ha2, Ha1, app_assoc. reflexivity.
Qed.

Lemma ensures_ret {A} (a : A) (P : A -> Prop) : P a -> ensures (ret a) P.
Proof.
  intros H w r w' E. unfold ret in E. inversion E; subst. auto.
Qed.

Lemma ensures_raise {A} (e : exn) (P : A -> Prop) : ensures (raise e) P.
Proof.
  intros w r w' E. unfold raise in E. inversion E; subst. auto.
Qed.

Lemma ensures_bind {A B} (c : M A) (k : A -> M B) (P1 : A -> Prop)
    (P : B -> Prop) :
  ensures c P1 -> (forall a, P1 a -> ensures (k a) P) -> ensures (bind c k) P.
Proof.
  intros Hc Hk w r w' E. unfold bind in E.
  destruct (c w) as [[e | a] w1] eqn:Ec.
  - inversion E; subst. destruct (Hc w _ _ Ec) as [Hl _]. auto.
  - destruct (Hc w _ _ Ec) as [Hl Ha].
    destruct (Hk a Ha w1 r w' E) as [Hl' Hr]. split; [lia | exact Hr].
Qed.

Lemma ensures_then {A B} (c : M A) (k : A -> M B) (P : B -> Prop) :
  ensures c (fun _ => True) -> (forall a, ensures (k a) P) ->
  ensures (bind c k) P.
Proof.
  intros Hc Hk. apply (ensures_bind c k (fun _ => True)); auto.
Qed.

Lemma ensures_try {A} (body handler : M A) (P : A -> Prop) :
  ensures body P -> ensures handler P ->
  ensures (try_except_ValueError body handler) P.
Proof.
  intros Hb Hh w r w' E. unfold try_except_ValueError in E.
  destruct (body w) as [[e | a] w1] eqn:Eb.
  - destruct (Hb w _ _ Eb) as [Hl _]. destruct e.
    + destruct (Hh w1 r w' E) as [Hl' Hr]. split; [lia | exact Hr].
    + inversion E; subst. auto.
  - inversion E; subst. exact (Hb w _ _ Eb).
Qed.

Lemma ensures_emit (ev : Event) : ensures (emit ev) (fun _ => True).
Proof.
  intros w r w' E. unfold emit in E. inversion E; subst. auto.
Qed.

Lemma ensures_print (text : string) : ensures (print text) (fun _ => True).
Proof. apply ensures_emit. Qed.

Lemma ensures_input (prompt : string) : ensures (input prompt) (fun _ => True).
Proof.
  intros w r w' E. unfold input in E.
  destruct (stdin w) as [| line rest]; inversion E; subst; cbn [stdin List.length];
    auto.
Qed.

Lemma ensures_write (filename : string) (f : File) :
  ensures (write_file filename f) (fun _ => True).
Proof.
  intros w r w' E. unfold write_file in E. inversion E; subst. auto.
Qed.

Lemma ensures_parsed {A} (o : option A) : ensures (parsed o) (fun _ => True).
Proof.
  destruct o; [apply ensures_ret; exact I | apply ensures_raise].
Qed.

Lemma ensures_check_budgets (t : Tracker) :
  ensures (check_budgets t) (fun _ => True).
Proof.
  intros w r w' E. rewrite check_budgets_runs in E. inversion E; subst. auto.
Qed.

Lemma ensures_add_expense (t : Tracker) (cat : string) (amt : Q)
    (descr : string) :
  ensures (add_expense t cat amt descr) (continues t).
Proof.
  intros w r w' E.
  destruct (add_expense_runs t w cat amt descr) as [w1 [Hrun [_ Hin]]].
  rewrite Hrun in E. inversion E; subst. split; [rewrite Hin; lia |].
  split; [reflexivity |]. split; [eexists; reflexivity | intros _; reflexivity].
Qed.

(** One step of a proof that a computation of the tracker [ensures] a
    property, chosen by the shape of the computation. *)
Ltac ensure_step :=
  lazymatch goal with
  | |- ensures (bind (try_except_ValueError _ _) _) _ => fail
  | |- ensures (bind (set_budget _ _) _) _ => fail
  | |- ensures (bind _ _) _ => apply ensures_then; [| intros ?]
  | |- ensures (ret _) _ => apply ensures_ret; try exact I
  | |- ensures (raise _) _ => apply ensures_raise
  | |- ensures (print _) _ => apply ensures_print
  | |- ensures (emit _) _ => apply ensures_emit
  | |- ensures (input _) _ => apply ensures_input
  | |- ensures (parsed _) _ => apply ensures_parsed
  | |- ensures (write_file _ _) _ => apply ensures_write
  | |- ensures (check_budgets _) _ => apply ensures_check_budgets
  | |- ensures (if ?b then _ else _) _ => destruct b
  end.

Lemma ensures_view_summary (t : Tracker) (period : string) :
  ensures (view_summary t period) (fun _ => True).
Proof. unfold view_summary. repeat ensure_step. Qed.

Lemma ensures_view_anomalies (t : Tracker) :
  ensures (view_anomalies t) (fun _ => True).
Proof.
  unfold view_anomalies.
  destruct (ExpenseAnalyzer.detect_anomalies (analyzer t) 2.0);
    repeat ensure_step.
Qed.

Lemma ensures_export_report (t : Tracker) (filename : string) :
  ensures (export_report t filename) (fun _ => True).
Proof. unfold export_report. repeat ensure_step. Qed.

Section Progress.

Variable float : string -> option Q.
Variable int : string -> option Z.

Lemma ensures_visualize_data (t : Tracker) :
  ensures (visualize_data int t) (fun _ => True).
Proof.
  unfold visualize_data. repeat ensure_step.
  match goal with
  | |- ensures (match ?x with inl _ => _ | inr _ => _ end) _ => destruct x
  end; repeat ensure_step.
Qed.

Lemma ensures_set_budget (t : Tracker) :
  ensures (set_budget float t) (continues t).
Proof.
  unfold set_budget. ensure_step; [ensure_step |].
  apply ensures_try; repeat ensure_step.
  - split; [reflexivity |]. split; [exists []; symmetry; apply app_nil_r | auto].
  - apply continues_refl.
Qed.

(** A turn of the menu that returns has read at least one line, and
    its tracker continues the one it started from. *)
Lemma menu_turn_progress (t : Tracker) (w : World) (t' : Tracker) (b : bool)
    (w' : World) :
  menu_turn float int t w = (inr (t', b), w') ->
  continues t t' /\ (List.length (stdin w') < List.length (stdin w))%nat.
Proof.
  intros H. unfold menu_turn in H. rewrite run_print_menu in H.
  destruct (stdin w) as [| line rest] eqn:Hin.
  - unfold bind at 1 in H. unfold input at 1 in H.
    rewrite after_stdin in H. inversion H.
  - rewrite (run_input _ _ _ line rest) in H by (rewrite after_stdin; reflexivity).
    rewrite after_after in H.
    match type of H with
    | ?c ?w2 = _ =>
        assert (Hens : ensures c (fun r => continues t (fst r)))
    end.
    { repeat ensure_step; try apply continues_refl; try exact I.
      - apply (ensures_bind _ _ (continues t)).
        + apply ensures_try; repeat ensure_step.
          * apply ensures_add_expense.
          * apply continues_refl.
        + intros tr Htr. apply ensures_ret. exact Htr.
      - apply ensures_view_summary.
      - apply (ensures_bind _ _ (continues t)); [apply ensures_set_budget |].
        intros tr Htr. apply ensures_ret. exact Htr.
      - apply ensures_view_anomalies.
      - apply ensures_visualize_data.
      - apply ensures_export_report. }
    destruct (Hens _ _ _ H) as [Hl Hc]. rewrite after_stdin in Hl.
    cbn [fst List.length] in *. split; [exact Hc | lia].
Qed.

Lemma menu_loop_continues (fuel : nat) (t : Tracker) (w : World)
    (t' : Tracker) (w' : World) :
  menu_loop float int fuel t w = (inr (Some t'), w') -> continues t t'.
Proof.
  revert t w. induction fuel as [| fuel IH]; intros t w H.
  - cbn [menu_loop] in H. unfold ret in H. inversion H.
  - cbn [menu_loop] in H. unfold bind at 1 in H.
    destruct (menu_turn float int t w) as [[e | [t1 b]] w1] eqn:Et;
      [inversion H |].
    destruct (menu_turn_progress t w t1 b w1 Et) as [Hc _].
    cbn [fst snd] in H. destruct b.
    + apply (continues_trans t t1 t'); [exact Hc | exact (IH t1 w1 H)].
    + unfold ret in H. inversion H; subst. exact Hc.
Qed.

Lemma menu_loop_enough_fuel (fuel : nat) (t : Tracker) (w : World) :
  (List.length (stdin w) < fuel)%nat ->
  fst (menu_loop float int fuel t w) <> inr None.
Proof.
  revert t w. induction fuel as [| fuel IH]; intros t w Hf; [lia |].
  cbn [menu_loop]. unfold bind at 1.
  destruct (menu_turn float int t w) as [[e | [t1 b]] w1] eqn:Et.
  - cbn [fst]. discriminate.
  - destruct (menu_turn_progress t w t1 b w1 Et) as [_ Hl].
    cbn [fst snd]. destruct b.
    + apply IH. lia.
    + unfold ret. cbn [fst]. discriminate.
Qed.

End Progress.

(** ** The menu: what each entry does to the tracker and the world *)

Lemma last_app_cons {A} (l : list A) (x : A) (l' : list A) (d : A) :
  List.last (l ++ x :: l') d = List.last (x :: l') d.
Proof.
  induction l as [| a l IH]; [reflexivity |].
  rewrite <- IH. cbn [app].
  destruct (l ++ x :: l') as [| b m] eqn:E; [| reflexivity].
  destruct l; discriminate.
Qed.

(** X11.  Menu entry 3 with a numeric limit stores the limit under the
    category, replacing an earlier one, and leaves every other budget,
    the ledger, the analyzer and the disk as they were; it confirms with
    the limit to two decimals and the loop goes on. *)
Theorem set_budget_stores_limit (float : string -> option Q)
    (int : string -> option Z) (tracker : Tracker) (w : World)
    (cat text : string) (limit : Q) (rest : list string) :
  float text = Some limit ->
  stdin w = "3"%string :: cat :: text :: rest ->
  exists tracker' w',
    menu_turn float int tracker w = (inr (tracker', true), w')
    /\ budget_manager tracker' !! cat = Some limit
    /\ (forall other, other <> cat ->
          budget_manager tracker' !! other = budget_manager tracker !! other)
    /\ data tracker' = data tracker
    /\ analyzer tracker' = analyzer tracker
    /\ storage tracker' = storage tracker
    /\ disk w' = disk w
    /\ stdin w' = rest
    /\ List.last (stdout w') (Prompt EmptyString)
       = Stdout (String.append "Budget set for "
                   (String.append cat
                      (String.append ": " (Num.format_f 2 limit)))).
Proof.
  intros Hf Hin. eexists. eexists. split.
  - apply (set_budget_turn_runs float int tracker w cat text limit rest Hf Hin).
  - cbn [budget_manager data analyzer storage after_turn disk stdin stdout].
    split; [apply lookup_insert_eq |].
    split; [intros other Hne; apply lookup_insert_ne; congruence |].
    repeat (split; [reflexivity |]).
    rewrite ?app_assoc. rewrite last_app_cons. reflexivity.
Qed.

(** X11 for a limit of 1000 on Food that replaces one of 500. *)
Lemma set_budget_stores_limit_witness :
  exists tracker' w',
    menu_turn decimal_float decimal_int
      (mkTracker JSONDataStorage.default_filename [] [] (food_budget 500))
      (scripted ["3"; "Food"; "1000"; "7"])%string
    = (inr (tracker', true), w')
    /\ budget_manager tracker' !! "Food"%string = Some 1000%Q.
Proof.
  destruct (set_budget_stores_limit decimal_float decimal_int
              (mkTracker JSONDataStorage.default_filename [] [] (food_budget 500))
              (scripted ["3"; "Food"; "1000"; "7"])%string
              "Food" "1000" 1000 ["7"%string])
    as [t' [w' [H1 [H2 _]]]].
  - vm_compute. reflexivity.
  - reflexivity.
  - exists t', w'. split; assumption.
Defined.

(** X12.  A line that is none of the entries 1 to 7 changes nothing:
    the turn answers "Invalid choice. Please try again." and the loop
    goes on with the same tracker.  Entry 7 ends the loop: it answers
    "Goodbye!", returns the tracker as it is and leaves the lines that
    follow unread. *)
Theorem unknown_choice_and_exit (float : string -> option Q)
    (int : string -> option Z) (tracker : Tracker) (w : World)
    (choice : string) (rest : list string) (fuel : nat) :
  stdin w = choice :: rest ->
  (~ In choice menu_choices ->
   let w' :=
     after_turn w rest
       (menu_events
        ++ [Prompt "Choose an option (1-7): ";
            Stdout "Invalid choice. Please try again."]) in
   menu_turn float int tracker w = (inr (tracker, true), w')
   /\ menu_loop float int (S fuel) tracker w
      = menu_loop float int fuel tracker w')
  /\ (choice = "7"%string ->
      menu_loop float int (S fuel) tracker w
      = (inr (Some tracker),
         after_turn w rest
           (menu_events
            ++ [Prompt "Choose an option (1-7): "; Stdout "Goodbye!"]))).
Proof.
  intros Hin. split.
  - intros Hc w'.
    pose proof (unknown_choice_runs float int tracker w choice rest Hc Hin) as H.
    split; [exact H |].
    apply (menu_loop_step float int fuel tracker w tracker w' H).
  - intros ->.
    apply (menu_loop_exits float int fuel tracker w tracker).
    apply exit_choice_runs. exact Hin.
Qed.

(** X12 for the line "9" and for the line "7". *)
Lemma unknown_choice_and_exit_witness :
  menu_turn decimal_float decimal_int empty_tracker
    (scripted ["9"; "7"])%string
  = (inr (empty_tracker, true),
     after_turn (scripted ["9"; "7"])%string ["7"%string]
       (menu_events
        ++ [Prompt "Choose an option (1-7): ";
            Stdout "Invalid choice. Please try again."]))
  /\ menu_loop decimal_float decimal_int 1 empty_tracker
       (scripted ["7"; "1"])%string
     = (inr (Some empty_tracker),
        after_turn (scripted ["7"; "1"])%string ["1"%string]
          (menu_events
           ++ [Prompt "Choose an option (1-7): "; Stdout "Goodbye!"])).
Proof.
  split.
  - apply (unknown_choice_and_exit decimal_float decimal_int empty_tracker
             (scripted ["9"; "7"])%string "9" ["7"%string] 0 eq_refl).
    unfold menu_choices. cbn [In].
    intros [H | [H | [H | [H | [H | [H | [H | []]]]]]]]; discriminate.
  - apply (unknown_choice_and_exit decimal_float decimal_int empty_tracker
             (scripted ["7"; "1"])%string "7" ["1"%string] 0 eq_refl).
    reflexivity.
Defined.



(** X14.  A window size that is not an integer is not caught: in menu
    entry 5, option 3, it ends the whole session with [ValueError],
    whatever input follows, where entries 1 and 3 only report an
    invalid amount.  The disk is as it was. *)
Theorem window_not_integer_ends_session (float : string -> option Q)
    (int : string -> option Z) (tracker : Tracker) (w : World)
    (text : string) (rest : list string) (fuel : nat) :
  int (if String.eqb text EmptyString then "7"%string else text) = None ->
  stdin w = "5"%string :: "3"%string :: text :: rest ->
  exists w',
    menu_loop float int (S fuel) tracker w = (inl ValueError, w')
    /\ disk w' = disk w
    /\ stdin w' = rest.
Proof.
  intros Hint Hin. eexists. split.
  - apply menu_loop_raises.
    apply (window_crash_runs float int tracker w text rest Hint Hin).
  - split; reflexivity.
Qed.

(** X14 for the window "week": the session ends although "7" follows. *)
Lemma window_not_integer_ends_session_witness :
  exists w',
    menu_loop decimal_float decimal_int 5 empty_tracker
      (scripted ["5"; "3"; "week"; "7"])%string
    = (inl ValueError, w')
    /\ disk w' = disk (scripted ["5"; "3"; "week"; "7"])%string
    /\ stdin w' = ["7"%string].
Proof.
  apply (window_not_integer_ends_session decimal_float decimal_int
           empty_tracker (scripted ["5"; "3"; "week"; "7"])%string
           "week" ["7"%string] 4).
  - vm_compute. reflexivity.
  - reflexivity.
Defined.

(** X15.  Through a whole session the ledger only grows: when the menu
    loop returns, the ledger of its tracker is the ledger it started
    with followed by the records added, the store is the same, and the
    analyzer holds the current ledger if it did at the start. *)
Theorem session_ledger_append_only (float : string -> option Q)
    (int : string -> option Z) (fuel : nat) (tracker : Tracker) (w : World)
    (tracker' : Tracker) (w' : World) :
  menu_loop float int fuel tracker w = (inr (Some tracker'), w') ->
  storage tracker' = storage tracker
  /\ (exists added, data tracker' = data tracker ++ added)
  /\ (analyzer tracker = data tracker -> analyzer tracker' = data tracker').
Proof.
  intros H. exact (menu_loop_continues float int fuel tracker w tracker' w' H).
Qed.

(** X15 on a session that adds one expense to a ledger of four. *)
Lemma session_ledger_append_only_witness :
  exists added,
    data (mkTracker JSONDataStorage.default_filename
            (food_850 ++ [mkExpense march_20 "Food" 12 "tea"])
            (food_850 ++ [mkExpense march_20 "Food" 12 "tea"]) ∅)
    = food_850 ++ added.
Proof.
  apply (session_ledger_append_only decimal_float decimal_int 5
           (mkTracker JSONDataStorage.default_filename food_850 food_850 ∅)
           (scripted ["1"; "Food"; "12"; "tea"; "7"])%string _
           (snd (menu_loop decimal_float decimal_int 5
                   (mkTracker JSONDataStorage.default_filename food_850 food_850 ∅)
                   (scripted ["1"; "Food"; "12"; "tea"; "7"])%string))).
  vm_compute. reflexivity.
Defined.

(** X16.  The menu loop ends on every finite input: unrolled more often
    than there are lines to read, it never stops for lack of turns, so it
    ends by entry 7 or by an exception; and with no line left to read it
    ends with [EOFError]. *)
Theorem menu_loop_ends (float : string -> option Q) (int : string -> option Z)
    (fuel : nat) (tracker : Tracker) (w : World) :
  (List.length (stdin w) < fuel)%nat ->
  fst (menu_loop float int fuel tracker w) <> inr None
  /\ (stdin w = [] ->
      fst (menu_loop float int fuel tracker w) = inl EOFError).
Proof.
  intros Hf. split; [exact (menu_loop_enough_fuel float int fuel tracker w Hf) |].
  intros Hin. destruct fuel as [| fuel]; [lia |].
  cbn [menu_loop]. unfold bind at 1. unfold menu_turn.
  rewrite run_print_menu. unfold bind at 1. unfold input at 1.
  rewrite after_stdin, Hin. reflexivity.
Qed.

(** X16 on an input of one unknown line: two turns are enough, and the
    second one finds no line. *)
Lemma menu_loop_ends_witness :
  fst (menu_loop decimal_float decimal_int 2 empty_tracker
         (scripted ["9"%string])) <> inr None
  /\ fst (menu_loop decimal_float decimal_int 1 empty_tracker (scripted []))
     = inl EOFError.
Proof.
  split.
  - apply (menu_loop_ends decimal_float decimal_int 2 empty_tracker
             (scripted ["9"%string])).
    cbn [scripted stdin List.length]. lia.
  - apply (menu_loop_ends decimal_float decimal_int 1 empty_tracker
             (scripted [])); [cbn [scripted stdin List.length]; lia |].
    reflexivity.
Defined.

(** ** How large a z-score can be *)












(** ** Viewing a summary *)

Lemma run_emit {B} (ev : Event) (k : unit -> M B) (w : World) :
  bind (emit ev) k w = k tt (after_turn w (stdin w) [ev]).
Proof. reflexivity. Qed.

Lemma view_summary_runs (t : Tracker) (period : string) (w : World) :
  view_summary t period w
  = (inr tt,
     after_turn w (stdin w)
       ((if String.eqb period "month"
         then [Stdout (String.append nl "Monthly Summary:");
               StdoutMonthlySummary
                 (ExpenseAnalyzer.get_monthly_summary (analyzer t))]
         else [Stdout (String.append nl "Category Summary:");
               StdoutCategorySummary
                 (ExpenseAnalyzer.get_category_summary (analyzer t))])
        ++ [Stdout (String.append nl
                      (String.append "Total Spent: "
                         (Num.format_f 2 (Num.sum (amounts (data t))))));
            Stdout (String.append "Average Daily: "
                      (format_cell 2 (avg_daily (data t))))])).
Proof.
  unfold view_summary.
  destruct (String.eqb period "month").
  - rewrite run_bind, run_print. cbv beta. unfold bind at 1. unfold emit at 1.
    cbn [stdin stdout disk clock ticks after_turn].
    rewrite run_print. unfold print, emit.
    cbn [stdin stdout disk clock ticks after_turn].
    rewrite <- !app_assoc. reflexivity.
  - rewrite run_bind, run_print. cbv beta. unfold bind at 1. unfold emit at 1.
    cbn [stdin stdout disk clock ticks after_turn].
    rewrite run_print. unfold print, emit.
    cbn [stdin stdout disk clock ticks after_turn].
    rewrite <- !app_assoc. reflexivity.
Qed.

Section ViewSummary.

Variable float : string -> option Q.
Variable int : string -> option Z.

Lemma view_turn_runs (t : Tracker) (w : World) (text : string)
    (rest : list string) :
  stdin w = "2"%string :: text :: rest ->
  menu_turn float int t w
  = (inr (t, true),
     after_turn w rest
       (menu_events
        ++ [Prompt "Choose an option (1-7): ";
            Prompt "View by (month/category): "]
        ++ (if String.eqb (lower text) "category"
            then [Stdout (String.append nl "Category Summary:");
                  StdoutCategorySummary
                    (ExpenseAnalyzer.get_category_summary (analyzer t))]
            else [Stdout (String.append nl "Monthly Summary:");
                  StdoutMonthlySummary
                    (ExpenseAnalyzer.get_monthly_summary (analyzer t))])
        ++ [Stdout (String.append nl
                      (String.append "Total Spent: "
                         (Num.format_f 2 (Num.sum (amounts (data t))))));
            Stdout (String.append "Average Daily: "
                      (format_cell 2 (avg_daily (data t))))])).
Proof.
  intros Hin.
  unfold menu_turn.
  rewrite run_print_menu.
  rewrite (run_input _ _ _ "2"%string (text :: rest)) by exact Hin.
  change (String.eqb "2" "1") with false.
  rewrite String.eqb_refl. cbv iota.
  rewrite (run_input _ _ _ text rest) by reflexivity.
  rewrite !after_after.
  unfold bind at 1. rewrite view_summary_runs. unfold ret.
  rewrite after_stdin, after_after.
  assert (E : String.eqb
                (if String.eqb (lower text) "month"
                    || String.eqb (lower text) "category"
                 then lower text else "month"%string) "month"
              = negb (String.eqb (lower text) "category")).
  { destruct (String.eqb_spec (lower text) "category") as [Hc | Hc].
    - rewrite Hc. reflexivity.
    - destruct (String.eqb_spec (lower text) "month") as [Hm | Hm].
      + rewrite Hm. reflexivity.
      + reflexivity. }
  rewrite E.
  destruct (String.eqb (lower text) "category"); cbn [negb];
    rewrite <- ?app_assoc; reflexivity.
Qed.

End ViewSummary.

(** X18.  Menu entry 2 shows the category summary exactly when the
    answer, whatever its letter case, is "category"; every other answer,
    "month" or not, shows the monthly summary.  Either way the total and
    the daily average follow as the last two lines, and the tracker, the
    disk and the rest of the input are as they were. *)
Theorem view_summary_by_period (float : string -> option Q)
    (int : string -> option Z) (tracker : Tracker) (w : World)
    (text : string) (rest : list string) :
  stdin w = "2"%string :: text :: rest ->
  exists (w' : World) (shown : list Event),
    menu_turn float int tracker w = (inr (tracker, true), w')
    /\ disk w' = disk w
    /\ stdin w' = rest
    /\ stdout w'
       = stdout w
         ++ menu_events
         ++ [Prompt "Choose an option (1-7): ";
             Prompt "View by (month/category): "]
         ++ shown
         ++ [Stdout (String.append nl
                       (String.append "Total Spent: "
                          (Num.format_f 2 (Num.sum (amounts (data tracker))))));
             Stdout (String.append "Average Daily: "
                       (format_cell 2 (avg_daily (data tracker))))]
    /\ (lower text = "category"%string ->
        shown = [Stdout (String.append nl "Category Summary:");
                 StdoutCategorySummary
                   (ExpenseAnalyzer.get_category_summary (analyzer tracker))])
    /\ (lower text <> "category"%string ->
        shown = [Stdout (String.append nl "Monthly Summary:");
                 StdoutMonthlySummary
                   (ExpenseAnalyzer.get_monthly_summary (analyzer tracker))]).
Proof.
  intros Hin.
  eexists. eexists.
  split; [exact (view_turn_runs float int tracker w text rest Hin) |].
  split; [reflexivity |].
  split; [reflexivity |].
  split; [reflexivity |].
  destruct (String.eqb_spec (lower text) "category") as [Hc | Hc].
  - split; [reflexivity | intros Hn; contradiction].
  - split; [intros He; contradiction | reflexivity].
Qed.

Lemma view_summary_by_period_witness :
  exists (w' : World) (shown : list Event),
    menu_turn decimal_float decimal_int empty_tracker
      (scripted ["2"; "Weekly"]%string) = (inr (empty_tracker, true), w')
    /\ stdin w' = []
    /\ shown = [Stdout (String.append nl "Monthly Summary:");
                StdoutMonthlySummary []]
    /\ List.last (stdout w') (Prompt EmptyString)
       = Stdout "Average Daily: nan".
Proof.
  destruct (view_summary_by_period decimal_float decimal_int empty_tracker
              (scripted ["2"; "Weekly"]%string) "Weekly"%string []
              eq_refl)
    as (w' & shown & Hrun & _ & Hin & Hout & _ & Hmonth).
  exists w', shown.
  split; [exact Hrun |].
  split; [exact Hin |].
  split; [apply Hmonth; vm_compute; discriminate |].
  rewrite Hout. rewrite !app_assoc. rewrite last_app_cons. reflexivity.
Defined.

(** ** Viewing the anomalies *)



